(** * Budget tracker: expense store, budget calculator and HTTP API

    A shallow embedding of the budgeting logic of the application:
    - [src/app/(tabs)/index.tsx]: the home screen's budget arithmetic
      ([totalSpent], [remaining], [percentageUsed], [getBudgetStatus],
      [recentExpenses]);
    - [src/app/(tabs)/expenses.tsx]: the add-expense workflow over the
      on-device key-value store ([handleAddExpense]) and the edit workflow
      over the HTTP API ([saveEditedExpense]);
    - [src/app/budget-setup.tsx]: [handleSetBudget];
    - [src/backend/server.js] and [src/hooks/useApi.ts]: the Express routes
      over the [expenses] table and the client calls that reach them.

    JavaScript numbers are IEEE 754 binary64 values; they are modelled with
    the Standard Library's executable specification of floating-point
    arithmetic ([spec_float] at precision 53 and maximal exponent 1024). *)

From Stdlib Require Import ZArith List Bool Ascii String Lia SpecFloat Permutation Sorted.
From stdpp Require Import base option list strings pretty gmap.

Local Open Scope Z_scope.

(* ===================================================================== *)
(** ** JavaScript numbers *)
(* ===================================================================== *)

Module Num.

Definition number : Type := spec_float.

Definition prec : Z := 53.
Definition emax : Z := 1024.

Definition add : number -> number -> number := SFadd prec emax.
Definition sub : number -> number -> number := SFsub prec emax.
Definition mul : number -> number -> number := SFmul prec emax.
Definition div : number -> number -> number := SFdiv prec emax.

(** [x < y], [x <= y], [x > y], [x >= y]: every comparison with a NaN
    operand is false. *)
Definition lt (x y : number) : bool := SFltb x y.
Definition le (x y : number) : bool := SFleb x y.
Definition gt (x y : number) : bool := SFltb y x.
Definition ge (x y : number) : bool := SFleb y x.

Definition isNaN (x : number) : bool :=
  match x with S754_nan => true | _ => false end.

Definition isFinite (x : number) : bool :=
  match x with S754_zero _ | S754_finite _ _ _ => true | _ => false end.

(** The number denoted by an integer literal. *)
Definition of_Z (z : Z) : number := binary_normalize prec emax z 0 false.

(** The number nearest to [m * 10^e], for a non-negative integer [m]:
    the value of a decimal literal. The quotient is rounded once. *)
Definition of_decimal (neg : bool) (m : Z) (e : Z) : number :=
  match m with
  | Zpos p =>
      match e with
      | Zneg k => SFdiv prec emax (S754_finite neg p 0)
                    (S754_finite false (Pos.pow 10 k) 0)
      | _ => binary_round prec emax neg (Z.to_pos (m * 10 ^ e)) 0
      end
  | _ => S754_zero neg
  end.

Definition zero : number := S754_zero false.

(** The number that is the positive integer [c], for [c] below 2^53: its 53
    binary digits, the leading one first, and the exponent that places
    them. *)
Definition canonical (c : positive) : number :=
  S754_finite false
    (Z.to_pos (Zpos c * 2 ^ (53 - Zpos (digits2_pos c))))
    (Zpos (digits2_pos c) - 53).

End Num.

Abbreviation number := Num.number.

Declare Scope num_scope.
Delimit Scope num_scope with num.
Infix "+" := Num.add : num_scope.
Infix "-" := Num.sub : num_scope.
Infix "*" := Num.mul : num_scope.
Infix "/" := Num.div : num_scope.
Infix "<?" := Num.lt : num_scope.
Infix "<=?" := Num.le : num_scope.
Infix ">?" := Num.gt : num_scope.
Infix ">=?" := Num.ge : num_scope.

(* ===================================================================== *)
(** ** [parseFloat] *)
(* ===================================================================== *)

(** [parseFloat(s)] skips leading white space, reads the longest prefix that
    is a decimal literal (optional sign, then [Infinity], or digits with an
    optional fraction and an optional complete exponent) and ignores what
    follows; it is [NaN] when there is no such prefix. Text is held as its
    UTF-8 bytes. *)
Module ParseFloat.

Definition digit_of (c : ascii) : option Z :=
  let n := Z.of_N (Ascii.N_of_ascii c) in
  if (48 <=? n) && (n <=? 57) then Some (n - 48) else None.

Definition code (c : ascii) : Z := Z.of_N (Ascii.N_of_ascii c).

(** The white space of one byte: the space, and the tab, line feed,
    vertical tab, form feed and carriage return. *)
Definition is_space (c : ascii) : bool :=
  let n := code c in
  (n =? 32) || ((9 <=? n) && (n <=? 13)).

(** The white space of two bytes, U+00A0. *)
Definition is_space2 (c1 c2 : ascii) : bool :=
  (code c1 =? 194) && (code c2 =? 160).

(** The white space of three bytes: U+1680, U+2000 to U+200A, the line and
    paragraph separators U+2028 and U+2029, U+202F, U+205F, U+3000 and the
    byte order mark U+FEFF. *)
Definition is_space3 (c1 c2 c3 : ascii) : bool :=
  let '(a, b, c) := (code c1, code c2, code c3) in
  ((a =? 225) && (b =? 154) && (c =? 128))
  || ((a =? 226) && (b =? 128)
      && (((128 <=? c) && (c <=? 138)) || (c =? 168) || (c =? 169)
          || (c =? 175)))
  || ((a =? 226) && (b =? 129) && (c =? 159))
  || ((a =? 227) && (b =? 128) && (c =? 128))
  || ((a =? 239) && (b =? 187) && (c =? 191)).

(** What follows the white-space character a text starts with, [None] when
    it does not start with one. The white space is the language's
    [WhiteSpace] and [LineTerminator]. *)
Definition space_prefix (s : string) : option string :=
  match s with
  | String c1 s1 =>
      if is_space c1 then Some s1
      else
        match s1 with
        | String c2 s2 =>
            if is_space2 c1 c2 then Some s2
            else
              match s2 with
              | String c3 s3 => if is_space3 c1 c2 c3 then Some s3 else None
              | EmptyString => None
              end
        | EmptyString => None
        end
  | EmptyString => None
  end.

Fixpoint skip_spaces (fuel : nat) (s : string) : string :=
  match fuel with
  | O => s
  | S fuel' =>
      match space_prefix s with
      | Some rest => skip_spaces fuel' rest
      | None => s
      end
  end.

(** The text without its leading white space; a character takes a byte at
    least. *)
Definition skip_space (s : string) : string :=
  skip_spaces (String.length s) s.

(** Reads a run of decimal digits: the value accumulated onto [acc], the
    number of digits read, and the rest of the input. *)
Fixpoint digits (acc : Z) (n : Z) (s : string) : Z * Z * string :=
  match s with
  | String c s' =>
      match digit_of c with
      | Some d => digits (10 * acc + d) (n + 1) s'
      | None => (acc, n, s)
      end
  | EmptyString => (acc, n, s)
  end.

Definition sign (s : string) : bool * string :=
  match s with
  | String "-" s' => (true, s')
  | String "+" s' => (false, s')
  | _ => (false, s)
  end.

(** The exponent part [e], [E] followed by an optional sign and at least
    one digit; an incomplete exponent is not part of the literal. *)
Definition exponent (s : string) : Z :=
  match s with
  | String c s' =>
      if Ascii.eqb c "e" || Ascii.eqb c "E" then
        let '(neg, s'') := sign s' in
        let '(v, n, _) := digits 0 0 s'' in
        if n =? 0 then 0 else if neg then - v else v
      else 0
  | EmptyString => 0
  end.

Definition parseFloat (input : string) : number :=
  let '(neg, s) := sign (skip_space input) in
  if String.prefix "Infinity" s then S754_infinity neg
  else
    let '(ip, n_ip, s1) := digits 0 0 s in
    match s1 with
    | String "." s2 =>
        let '(m, n_fp, s3) := digits ip 0 s2 in
        if (n_ip =? 0) && (n_fp =? 0) then S754_nan
        else Num.of_decimal neg m (exponent s3 - n_fp)
    | _ =>
        if n_ip =? 0 then S754_nan
        else Num.of_decimal neg ip (exponent s1)
    end.

End ParseFloat.

Abbreviation parseFloat := ParseFloat.parseFloat.

Local Open Scope string_scope.

(* ===================================================================== *)
(** ** [Number.prototype.toFixed] *)
(* ===================================================================== *)

Module NumberText.

(** The decimal digits of [n], padded with zeros to [width] digits. *)
Fixpoint zero_padded (width : nat) (n : Z) : string :=
  match width with
  | O => ""
  | S w =>
      zero_padded w (n / 10)
      ++ String (Ascii.ascii_of_N (Z.to_N (48 + n mod 10))) ""
  end.

(** The integer [n] for which [n / 10^f] is nearest to [m * 2^e], the
    larger of two that are as near. *)
Definition scaled (f : nat) (m : positive) (e : Z) : Z :=
  let p := 10 ^ Z.of_nat f in
  match e with
  | Zneg k => (2 * p * Zpos m + 2 ^ Zpos k) / 2 ^ (Zpos k + 1)
  | _ => p * Zpos m * 2 ^ e
  end.

Definition fixed_text (f : nat) (n : Z) : string :=
  match f with
  | O => pretty n
  | _ =>
      pretty (n / 10 ^ Z.of_nat f) ++ "."
      ++ zero_padded f (n mod 10 ^ Z.of_nat f)
  end.

(** [m * 2^e >= 1e21] *)
Definition at_least_1e21 (m : positive) (e : Z) : bool :=
  match e with
  | Zneg k => (10 ^ 21 * 2 ^ Zpos k <=? Zpos m)%Z
  | _ => (10 ^ 21 <=? Zpos m * 2 ^ e)%Z
  end.

(** The digits [s] and the power of ten [e10] of the shortest decimal
    [s * 10^e10] that [x], the number of the integer [N] of [n] digits, is
    the nearest number to: the decimals of [k] digits are tried for [k]
    from 1 on; of two of a length the one nearer to [N] is taken, the even
    one when they are as near. *)
Fixpoint shortest (fuel : nat) (k n N : Z) (x : number) : Z * Z :=
  match fuel with
  | O => (N, 0)
  | S fuel' =>
      let p := 10 ^ (n - k) in
      let s := N / p in
      let below := SFeqb (Num.of_decimal false s (n - k)) x in
      let above := SFeqb (Num.of_decimal false (s + 1) (n - k)) x in
      let nearer_below :=
        (2 * N <? (2 * s + 1) * p)%Z
        || ((2 * N =? (2 * s + 1) * p)%Z && Z.even s) in
      if below && (negb above || nearer_below) then (s, n - k)
      else if above then (s + 1, n - k)
      else shortest fuel' (k + 1) n N x
  end.

(** The digits without the zeros at their end. *)
Fixpoint without_zeros (fuel : nat) (s e10 : Z) : Z * Z :=
  match fuel with
  | O => (s, e10)
  | S fuel' =>
      if (s mod 10 =? 0)%Z && (0 <? s)%Z
      then without_zeros fuel' (s / 10) (e10 + 1)
      else (s, e10)
  end.

(** [Number.prototype.toString] of [m * 2^e] when it is 1e21 at least, a
    number that is an integer: the shortest digits that read back as the
    number, with the exponent, as in [1.5e+21]. *)
Definition exponential (m : positive) (e : Z) : string :=
  let N := match e with
           | Zneg k => Zpos m / 2 ^ Zpos k
           | _ => Zpos m * 2 ^ e
           end in
  let n := Z.of_nat (String.length (pretty N)) in
  let '(s0, e0) := shortest 17 1 n N (S754_finite false m e) in
  let '(s, e10) := without_zeros 17 s0 e0 in
  let digits := pretty s in
  let exponent := e10 + Z.of_nat (String.length digits) - 1 in
  match digits with
  | String d EmptyString => String d "" ++ "e+" ++ pretty exponent
  | String d rest => String d "" ++ "." ++ rest ++ "e+" ++ pretty exponent
  | EmptyString => ""
  end.

(** [x.toFixed(fractionDigits)] *)
Definition toFixed (fractionDigits : nat) (x : number) : string :=
  match x with
  | S754_nan => "NaN"
  | S754_infinity neg => if neg then "-Infinity" else "Infinity"
  | S754_zero _ => fixed_text fractionDigits 0
  | S754_finite neg m e =>
      (if neg then "-" else "")
      ++ (if at_least_1e21 m e then exponential m e
          else fixed_text fractionDigits (scaled fractionDigits m e))
  end.

End NumberText.

(* ===================================================================== *)
(** ** Data model *)
(* ===================================================================== *)

(** [interface Expense] of the client screens. *)
Module Expense.
Record t : Type := mk {
  id : string;
  amount : number;
  category : string;
  note : string;
  date : string
}.
End Expense.

(** The on-device key-value store. Its values are strings; the one
    structured value, the expense array kept under the key [expenses], is
    written with [JSON.stringify] and read back with [JSON.parse], and is
    held here as the array that is read back. *)
Inductive item : Type :=
  | Text (s : string)
  | Json (expenses : list Expense.t).

(** An amount written with [JSON.stringify] and read back with
    [JSON.parse]. A finite number is read back as it is, [-0] as [+0]. A
    number that is not finite is written as [null]; the [null] read back
    counts as [+0] in the sums of the screens, [sum + expense.amount], and
    is held as [+0]. *)
Definition JSON_amount (x : number) : number :=
  match x with
  | S754_finite _ _ _ => x
  | _ => Num.zero
  end.

(** [JSON.parse(JSON.stringify(expenses))] *)
Definition JSON_expenses (expenses : list Expense.t) : list Expense.t :=
  map (fun expense =>
         Expense.mk (Expense.id expense) (JSON_amount (Expense.amount expense))
           (Expense.category expense) (Expense.note expense)
           (Expense.date expense))
    expenses.

Abbreviation AsyncStorage := (gmap string item).

Definition getItem (key : string) (storage : AsyncStorage) : option item :=
  storage !! key.

Definition setItem (key : string) (value : item) (storage : AsyncStorage)
  : AsyncStorage :=
  <[key := value]> storage.

(* ===================================================================== *)
(** ** Budget calculator of the home screen, [src/app/(tabs)/index.tsx] *)
(* ===================================================================== *)

Inductive BudgetStatus : Type :=
  | exceeded | critical | warning | caution | good.

Module Home.

(** [setBudget(storedBudget ? parseFloat(storedBudget) : 0)] in
    [loadData]: [null] and the empty string are falsy; the text of an
    array starts with a bracket and is not a number. *)
Definition loadBudget (storage : AsyncStorage) : number :=
  match getItem "budget_amount" storage with
  | Some (Text storedBudget) =>
      if String.eqb storedBudget "" then Num.zero
      else parseFloat storedBudget
  | Some (Json _) => S754_nan
  | None => Num.zero
  end.

Section Calculator.

Variable budget : number.
Variable expenses : list Expense.t.

(** [expenses.reduce((sum, expense) => sum + expense.amount, 0)] *)
Definition totalSpent : number :=
  fold_left (fun sum expense => (sum + Expense.amount expense)%num)
    expenses Num.zero.

Definition remaining : number := (budget - totalSpent)%num.

Definition percentageUsed : number :=
  if (budget >? Num.zero)%num
  then ((totalSpent / budget) * Num.of_Z 100)%num
  else Num.zero.

Definition getBudgetStatus : BudgetStatus :=
  if (remaining <? Num.zero)%num then exceeded
  else if (percentageUsed >=? Num.of_Z 90)%num then critical
  else if (percentageUsed >=? Num.of_Z 75)%num then warning
  else if (percentageUsed >=? Num.of_Z 50)%num then caution
  else good.

End Calculator.

End Home.

(** [totalExpenses] of the expenses screen,
    [src/app/(tabs)/expenses.tsx]: the same sum, guarded by
    [typeof expense.amount === 'number'], which holds of every value of the
    field's type. *)
Definition totalExpenses (expenses : list Expense.t) : number :=
  fold_left (fun sum expense => (sum + Expense.amount expense)%num)
    expenses Num.zero.

(** The sum of whole amounts, as integers. *)
Definition sum_Z (amounts : list Z) : Z := fold_right Z.add 0 amounts.

(** The status rule in the specification's words: the thresholds are tried
    from the most to the least severe and the first that matches decides. *)
Inductive StatusOf (percentageUsed remaining : number) : BudgetStatus -> Prop :=
  | Status_exceeded :
      (remaining <? Num.zero)%num = true ->
      StatusOf percentageUsed remaining exceeded
  | Status_critical :
      (remaining <? Num.zero)%num = false ->
      (percentageUsed >=? Num.of_Z 90)%num = true ->
      StatusOf percentageUsed remaining critical
  | Status_warning :
      (remaining <? Num.zero)%num = false ->
      (percentageUsed >=? Num.of_Z 90)%num = false ->
      (percentageUsed >=? Num.of_Z 75)%num = true ->
      StatusOf percentageUsed remaining warning
  | Status_caution :
      (remaining <? Num.zero)%num = false ->
      (percentageUsed >=? Num.of_Z 90)%num = false ->
      (percentageUsed >=? Num.of_Z 75)%num = false ->
      (percentageUsed >=? Num.of_Z 50)%num = true ->
      StatusOf percentageUsed remaining caution
  | Status_good :
      (remaining <? Num.zero)%num = false ->
      (percentageUsed >=? Num.of_Z 90)%num = false ->
      (percentageUsed >=? Num.of_Z 75)%num = false ->
      (percentageUsed >=? Num.of_Z 50)%num = false ->
      StatusOf percentageUsed remaining good.

(** Severity of a status, [good] the least severe. *)
Definition severity (s : BudgetStatus) : nat :=
  match s with
  | good => 0 | caution => 1 | warning => 2 | critical => 3 | exceeded => 4
  end%nat.

(** An expense of the given amount, entered as the text of the amount
    field. *)
Definition spend (id amount : string) : Expense.t :=
  Expense.mk id (parseFloat amount) "Food" "" "2024-01-01T00:00:00.000Z".

(* ===================================================================== *)
(** ** Recent expenses of the home screen *)
(* ===================================================================== *)

Section Recent.

(** [new Date(s).getTime()]: the time value, in milliseconds since the
    epoch, that the platform reads from a date string; [None] stands for
    the [NaN] of an invalid date. *)
Variable Date_parse : string -> option Z.

(** [(a, b) => new Date(b.date).getTime() - new Date(a.date).getTime()].
    Time values are integers of magnitude at most 8.64e15, so the
    difference of two of them, as a number, has the sign of their
    difference as integers; [None] is [NaN]. *)
Definition by_date_desc (a b : Expense.t) : option Z :=
  match Date_parse (Expense.date b), Date_parse (Expense.date a) with
  | Some tb, Some ta => Some (tb - ta)
  | _, _ => None
  end.

Section ArraySort.

Variable comparefn : Expense.t -> Expense.t -> option Z.

(** The language's [SortCompare]: a [NaN] from the comparator counts
    as [+0]. *)
Definition SortCompare (x y : Expense.t) : Z :=
  match comparefn x y with
  | Some v => v
  | None => 0
  end.

(** [x] is placed before the first element it does not sort after. *)
Fixpoint sort_insert (x : Expense.t) (sorted : list Expense.t)
  : list Expense.t :=
  match sorted with
  | [] => [x]
  | y :: rest =>
      if (0 <? SortCompare x y)%Z then y :: sort_insert x rest
      else x :: y :: rest
  end.

(** [Array.prototype.sort(comparefn)]: a stable sort, here by
    insertion from the right end. *)
Fixpoint Array_sort (xs : list Expense.t) : list Expense.t :=
  match xs with
  | [] => []
  | x :: rest => sort_insert x (Array_sort rest)
  end.

End ArraySort.

(** [expenses.sort(...)]. The sort is in place: the array held in the
    screen's state is the sorted one afterwards, and the next render
    starts from it. *)
Definition render_expenses (expenses : list Expense.t) : list Expense.t :=
  Array_sort by_date_desc expenses.

(** [expenses.sort(...).slice(0, 5)] *)
Definition recentExpenses (expenses : list Expense.t) : list Expense.t :=
  take 5 (render_expenses expenses).

(** The time an expense is sorted by. *)
Definition time_of (e : Expense.t) : Z :=
  default 0 (Date_parse (Expense.date e)).

Definition valid_date (e : Expense.t) : Prop :=
  is_Some (Date_parse (Expense.date e)).

(** The view in the specification's words: the elements in descending
    order of date, those of equal date in the order of the list. An
    element is tagged with its position; [placed_before] is the strict
    order the tagged elements are arranged in. *)
Definition tagged (expenses : list Expense.t) : list (nat * Expense.t) :=
  imap (fun i e => (i, e)) expenses.

Definition tag_lt (p q : nat * Expense.t) : Prop := (fst p < fst q)%nat.

Definition placed_before (p q : nat * Expense.t) : Prop :=
  time_of (snd q) < time_of (snd p)
  \/ (time_of (snd p) = time_of (snd q) /\ (fst p < fst q)%nat).

Definition stably_sorted_by_date_desc (expenses view : list Expense.t)
  : Prop :=
  exists arranged : list (nat * Expense.t),
    Permutation arranged (tagged expenses)
    /\ StronglySorted placed_before arranged
    /\ view = map snd arranged.

End Recent.

(* ===================================================================== *)
(** ** Screens over the on-device store *)
(* ===================================================================== *)

(** [String.prototype.trim]: the text without the white space at its two
    ends. What is left of a text is dropped once it is white space only. *)
Fixpoint trim_end (s : string) : string :=
  match s with
  | EmptyString => EmptyString
  | String c s' =>
      if String.eqb (ParseFloat.skip_space s) "" then ""
      else String c (trim_end s')
  end.

Definition trim (s : string) : string := trim_end (ParseFloat.skip_space s).

Inductive alert : Type :=
  | Alert (title message : string).

(** What a handler leaves behind: the store, the dialog it raised and the
    route it navigated to. *)
Record outcome : Type := mkOutcome {
  storage : AsyncStorage;
  raised : option alert;
  navigated : option string
}.

(** [handleSetBudget] of [src/app/budget-setup.tsx]; [budgetAmount] is the
    text of the amount field. *)
Definition handleSetBudget (budgetAmount : string) (st : AsyncStorage)
  : outcome :=
  let amount := parseFloat budgetAmount in
  if Num.isNaN amount || (amount <=? Num.zero)%num then
    mkOutcome st
      (Some (Alert "Invalid Amount" "Please enter a valid budget amount"))
      None
  else
    let st1 := setItem "budget_amount" (Text budgetAmount) st in
    let st2 := setItem "expenses" (Json []) st1 in
    mkOutcome st2 None (Some "/(tabs)").

(** [handleSelect] of [src/app/onboarding.tsx]. *)
Definition handleSelect (type : string) (st : AsyncStorage) : outcome :=
  mkOutcome (setItem "budget_type" (Text type) st) None
    (Some "/budget-setup").

Module AddExpense.

(** The fields of the add-expense form. *)
Record form : Type := mkForm {
  amount : string;
  selectedCategory : string;
  note : string
}.

(** The readings the handler takes from the clock: [Date.now()] for the
    id and [new Date()] for the date. *)
Record clock : Type := mkClock {
  now : Z;
  today : Z
}.

Section Handler.

(** [Date.prototype.toISOString]. *)
Variable Date_toISOString : Z -> string.

(** [storedExpenses ? JSON.parse(storedExpenses) : []]; [None] when the
    stored text is not that of an array, and the handler's [catch]
    takes over. *)
Definition stored_expenses (st : AsyncStorage)
  : option (list Expense.t) :=
  match getItem "expenses" st with
  | None => Some []
  | Some (Json expenses) => Some expenses
  | Some (Text s) => if String.eqb s "" then Some [] else None
  end.

(** [handleAddExpense] of the add-expense screen,
    [src/app/(tabs)/expenses.tsx]. *)
Definition handleAddExpense (c : clock) (f : form) (st : AsyncStorage)
  : outcome :=
  let expenseAmount := parseFloat (amount f) in
  if Num.isNaN expenseAmount || (expenseAmount <=? Num.zero)%num then
    mkOutcome st
      (Some (Alert "Invalid Amount" "Please enter a valid expense amount"))
      None
  else if String.eqb (selectedCategory f) "" then
    mkOutcome st
      (Some (Alert "Missing Category" "Please select a category"))
      None
  else
    match stored_expenses st with
    | Some expenses =>
        let newExpense :=
          Expense.mk (pretty (now c)) expenseAmount (selectedCategory f)
            (trim (note f)) (Date_toISOString (today c)) in
        mkOutcome
          (setItem "expenses"
             (Json (JSON_expenses (expenses ++ [newExpense])%list)) st)
          (Some (Alert "Expense Added!"
                   ("₱" ++ NumberText.toFixed 2 expenseAmount
                    ++ " has been added to your expenses."))) None
    | None =>
        mkOutcome st (Some (Alert "Error" "Failed to add expense")) None
    end.

(** The ids of the stored expenses. *)
Definition stored_ids (st : AsyncStorage) : list string :=
  match getItem "expenses" st with
  | Some (Json expenses) => map Expense.id expenses
  | _ => []
  end.

(** A run of the handler, once per submitted form. *)
Fixpoint add_all (inputs : list (clock * form)) (st : AsyncStorage)
  : AsyncStorage :=
  match inputs with
  | [] => st
  | (c, f) :: rest => add_all rest (storage (handleAddExpense c f st))
  end.

End Handler.

End AddExpense.

(* ===================================================================== *)
(** ** The HTTP API, [src/backend/server.js] *)
(* ===================================================================== *)

#[local] Unset Elimination Schemes.

(** A JSON value of a request body. *)
Inductive json : Type :=
  | JNull
  | JBool (b : bool)
  | JNum (x : number)
  | JStr (s : string)
  | JArr (items : list json)
  | JObj (fields : list (string * json)).

#[local] Set Elimination Schemes.

(** A value used as a condition; [None] is a field the body does not
    have ([undefined]). *)
Definition truthy (v : option json) : bool :=
  match v with
  | None | Some JNull => false
  | Some (JBool b) => b
  | Some (JNum x) =>
      match x with
      | S754_zero _ | S754_nan => false
      | _ => true
      end
  | Some (JStr s) => negb (String.eqb s "")
  | Some (JArr _) | Some (JObj _) => true
  end.

(** The body of a request as [bodyParser.json()] hands it over: the fields
    of an object, a later duplicate of a key replacing an earlier one. *)
Definition body : Type := list (string * json).

Fixpoint field (key : string) (b : body) : option json :=
  match b with
  | [] => None
  | (k, v) :: rest =>
      match field key rest with
      | Some v' => Some v'
      | None => if String.eqb k key then Some v else None
      end
  end.

(** [String.prototype.replace(c, d)] for one-character strings: the first
    occurrence only. *)
Fixpoint replace_first (c d : ascii) (s : string) : string :=
  match s with
  | EmptyString => EmptyString
  | String a s' =>
      if Ascii.eqb a c then String d s' else String a (replace_first c d s')
  end.

Module Db.

(** A row of the table [expenses] as the driver returns it, without its
    key: the [DECIMAL(10, 2)] amount as its decimal text, the [DATETIME]
    as the text it is sent to the client as. *)
Record row : Type := mkRow {
  amount : string;
  category : string;
  note : option string;
  date : string
}.

(** The table: its rows by primary key, and the [AUTO_INCREMENT]
    counter, the key of the next inserted row. *)
Record table : Type := mkTable {
  rows : gmap Z row;
  auto_increment : Z
}.

Definition empty : table := mkTable ∅ 1.

(** What the database engine does with the values bound to a statement:
    [converted] is the row it stores for the values of an [INSERT]
    (amount, category, note, date), [key_of] the key it compares the [id]
    column with for the text bound in [WHERE id = ?]; either can be the
    message of the error the statement fails with. *)
Record engine : Type := mkEngine {
  converted : json -> json -> option json -> string -> string + row;
  key_of : string -> string + Z
}.

(** [INSERT INTO expenses (amount, category, note, date) VALUES ...]:
    the new row takes the counter as its key. *)
Definition insert (r : row) (t : table) : string + (Z * table) :=
  let k := auto_increment t in
  match rows t !! k with
  | Some _ => inl "Duplicate entry for key 'PRIMARY'"
  | None => inr (k, mkTable (<[k := r]> (rows t)) (k + 1))
  end.

(** [DELETE FROM expenses WHERE id = ?] *)
Definition delete_where_id (k : Z) (t : table) : table :=
  mkTable (delete k (rows t)) (auto_increment t).

(** [DELETE FROM expenses] *)
Definition delete_all (t : table) : table :=
  mkTable ∅ (auto_increment t).

(** [SELECT * FROM expenses] *)
Definition select_all (t : table) : list (Z * row) :=
  map_to_list (rows t).

(** The keys in use lie below the counter. *)
Definition consistent (t : table) : Prop :=
  forall k r, rows t !! k = Some r -> k < auto_increment t.

End Db.

Inductive method : Type := GET | POST | PUT | DELETE.

Record request : Type := mkRequest {
  req_method : method;
  req_path : list string;
  req_body : body
}.

(** An expense of the response to [GET /expenses]. *)
Record fetched : Type := mkFetched {
  fetched_id : Z;
  fetched_amount : number;
  fetched_category : string;
  fetched_note : option string;
  fetched_date : string
}.

Inductive payload : Type :=
  | NoContent
  | Message (text : string)
  | InsertId (id : Z)
  | Expenses (list_ : list fetched).

Record response : Type := mkResponse {
  status : Z;
  sent : payload
}.

(** A segment of a route's path: a literal, or a parameter such as
    [:id]. *)
Inductive segment : Type :=
  | Literal (s : string)
  | Param (name : string).

(** A letter in lower case. *)
Definition lower (c : ascii) : ascii :=
  let n := Z.of_N (Ascii.N_of_ascii c) in
  if (65 <=? n)%Z && (n <=? 90)%Z then Ascii.ascii_of_N (Z.to_N (n + 32))
  else c.

Fixpoint lower_case (s : string) : string :=
  match s with
  | EmptyString => EmptyString
  | String c s' => String (lower c) (lower_case s')
  end.

(** Routing is not case sensitive. *)
Definition same_literal (s p : string) : bool :=
  String.eqb (lower_case s) (lower_case p).

(** The parameters a path gives to a route's pattern, [None] when the path
    does not match it. The path of a request is held as its segments, the
    texts between its slashes, so that [/expenses/7] is
    [["expenses"; "7"]] and [/expenses/] is [["expenses"; ""]]; the
    segment that a parameter takes is held as the handler receives it in
    [req.params], its escapes decoded. A parameter takes a segment that is
    not empty, and a slash at the end of the path is optional. *)
Fixpoint match_path (pattern : list segment) (path : list string)
  : option (list (string * string)) :=
  match pattern, path with
  | [], [] => Some []
  | [], [p] => if String.eqb p "" then Some [] else None
  | Literal s :: pattern', p :: path' =>
      if same_literal s p then match_path pattern' path' else None
  | Param name :: pattern', p :: path' =>
      if String.eqb p "" then None
      else
        match match_path pattern' path' with
        | Some params => Some ((name, p) :: params)
        | None => None
        end
  | _, _ => None
  end.

(** [req.params[name]] *)
Fixpoint param (name : string) (params : list (string * string)) : string :=
  match params with
  | [] => ""
  | (n, v) :: rest => if String.eqb n name then v else param name rest
  end.

Definition method_eqb (m m' : method) : bool :=
  match m, m' with
  | GET, GET | POST, POST | PUT, PUT | DELETE, DELETE => true
  | _, _ => false
  end.

Record route : Type := mkRoute {
  route_method : method;
  route_path : list segment;
  handler : list (string * string) -> body -> Db.table -> response * Db.table
}.

Section Server.

Variable engine : Db.engine.

(** The time value of [new Date(v)] for a value [v] of the body, [None]
    for an invalid date. *)
Variable Date_of : json -> option Z.

(** [Date.prototype.toISOString] *)
Variable Date_toISOString : Z -> string.

(** [app.get('/expenses', ...)] *)
Definition get_expenses (t : Db.table) : response * Db.table :=
  let formattedResults :=
    map (fun '(k, r) =>
           mkFetched k (parseFloat (Db.amount r)) (Db.category r)
             (Db.note r) (Db.date r))
      (Db.select_all t) in
  (mkResponse 200 (Expenses formattedResults), t).

(** [app.post('/expenses', ...)] *)
Definition post_expenses (b : body) (t : Db.table)
  : response * Db.table :=
  let amount := field "amount" b in
  let category := field "category" b in
  let note := field "note" b in
  let date := field "date" b in
  if negb (truthy amount) || negb (truthy category) || negb (truthy date)
  then
    (mkResponse 400
       (Message "Invalid data. Amount, category, and date are required."),
     t)
  else
    match amount, category, date with
    | Some amount, Some category, Some date =>
        match Date_of date with
        | None => (mkResponse 500 (Message "Error processing date."), t)
        | Some time =>
            let formattedDate :=
              replace_first "T" " "
                (String.substring 0 19 (Date_toISOString time)) in
            match Db.converted engine amount category note formattedDate
            with
            | inl err => (mkResponse 500 (Message err), t)
            | inr r =>
                match Db.insert r t with
                | inl err => (mkResponse 500 (Message err), t)
                | inr (insertId, t') =>
                    (mkResponse 201 (InsertId insertId), t')
                end
            end
        end
    | _, _, _ =>
        (mkResponse 400
           (Message "Invalid data. Amount, category, and date are required."),
         t)
    end.

(** [app.delete('/expenses/:id', ...)] *)
Definition delete_expense (id : string) (t : Db.table)
  : response * Db.table :=
  match Db.key_of engine id with
  | inl err => (mkResponse 500 (Message err), t)
  | inr k => (mkResponse 204 NoContent, Db.delete_where_id k t)
  end.

(** [app.delete('/expenses', ...)] *)
Definition delete_expenses (t : Db.table) : response * Db.table :=
  (mkResponse 204 NoContent, Db.delete_all t).

(** The routes in the order they are registered. *)
Definition routes : list route :=
  [ mkRoute GET [Literal "expenses"]
      (fun _ _ t => get_expenses t);
    mkRoute POST [Literal "expenses"]
      (fun _ b t => post_expenses b t);
    mkRoute DELETE [Literal "expenses"; Param "id"]
      (fun params _ t => delete_expense (param "id" params) t);
    mkRoute DELETE [Literal "expenses"]
      (fun _ _ t => delete_expenses t) ].

(** The first route that matches the method and the path handles the
    request. A request that no route matches reaches the end of the
    stack, where the framework answers 404; the page it sends is kept as a
    plain message. *)
Fixpoint dispatch (stack : list route) (req : request) (t : Db.table)
  : response * Db.table :=
  match stack with
  | [] => (mkResponse 404 (Message "Not Found"), t)
  | r :: stack' =>
      if method_eqb (route_method r) (req_method req) then
        match match_path (route_path r) (req_path req) with
        | Some params => handler r params (req_body req) t
        | None => dispatch stack' req t
        end
      else dispatch stack' req t
  end.

Definition app (req : request) (t : Db.table) : response * Db.table :=
  dispatch routes req t.

(** The server answering requests one after the other. *)
Fixpoint serve (reqs : list request) (t : Db.table)
  : list response * Db.table :=
  match reqs with
  | [] => ([], t)
  | req :: rest =>
      let '(res, t1) := app req t in
      let '(ress, t2) := serve rest t1 in
      (res :: ress, t2)
  end.

(** The keys the server reports for the rows it created. *)
Definition created_key (res : response) : option Z :=
  if (status res =? 201)%Z then
    match sent res with
    | InsertId k => Some k
    | _ => None
    end
  else None.

Definition created (ress : list response) : list Z :=
  omap created_key ress.

(* ------------------------------------------------------------------- *)
(** *** The client of the API, [src/hooks/useApi.ts] *)

(** A number in a JSON text: [JSON.stringify] writes [null] for a value
    that is not finite. *)
Definition JSON_number (x : number) : json :=
  if Num.isFinite x then JNum x else JNull.

(** The fields the edit workflow sends. *)
Record update : Type := mkUpdate {
  upd_amount : number;
  upd_category : string;
  upd_note : string;
  upd_date : string
}.

Definition update_body (u : update) : body :=
  [("amount", JSON_number (upd_amount u));
   ("category", JStr (upd_category u));
   ("note", JStr (upd_note u));
   ("date", JStr (upd_date u))].

(** The HTTP client rejects a response whose status is not 2xx. *)
Definition accepted (res : response) : bool :=
  (200 <=? status res)%Z && (status res <? 300)%Z.

(** [updateExpense]: [axios.put(`${API_URL}/expenses/${id}`, ...)];
    [inl] is the rejection of the call. *)
Definition updateExpense (id : string) (updatedExpense : update)
  (t : Db.table) : (response + unit) * Db.table :=
  let '(res, t') :=
    app (mkRequest PUT ["expenses"; id] (update_body updatedExpense)) t in
  (if accepted res then inr tt else inl res, t').

(** The state of the edit dialog of the expenses screen. *)
Record edit : Type := mkEdit {
  editingExpense : option Expense.t;
  editAmount : string;
  editCategory : string;
  editNote : string
}.

(** What [saveEditedExpense] leaves behind: the screen's list, the dialog
    raised and the table of the server. *)
Record saved : Type := mkSaved {
  shown : list Expense.t;
  notice : option alert;
  stored : Db.table
}.

(** [saveEditedExpense] of the expenses screen,
    [src/app/(tabs)/expenses.tsx]. *)
Definition saveEditedExpense (e : edit) (expenses : list Expense.t)
  (t : Db.table) : saved :=
  match editingExpense e with
  | None => mkSaved expenses None t
  | Some editing =>
      let amount := parseFloat (editAmount e) in
      if Num.isNaN amount || (amount <=? Num.zero)%num then
        mkSaved expenses
          (Some (Alert "Invalid Amount"
                   "Please enter a valid expense amount")) t
      else if String.eqb (editCategory e) "" then
        mkSaved expenses
          (Some (Alert "Missing Category" "Please select a category")) t
      else
        let updatedExpense :=
          mkUpdate amount (editCategory e) (trim (editNote e))
            (Expense.date editing) in
        match updateExpense (Expense.id editing) updatedExpense t with
        | (inr _, t') =>
            let updatedExpenses :=
              map (fun expense =>
                     if String.eqb (Expense.id expense) (Expense.id editing)
                     then
                       Expense.mk (Expense.id expense)
                         (upd_amount updatedExpense)
                         (upd_category updatedExpense)
                         (upd_note updatedExpense)
                         (upd_date updatedExpense)
                     else expense)
                expenses in
            mkSaved updatedExpenses
              (Some (Alert "Success" "Expense updated successfully!")) t'
        | (inl _, t') =>
            mkSaved expenses
              (Some (Alert "Error" "Failed to update expense")) t'
        end
  end.

End Server.

(* ===================================================================== *)
(** ** A platform and an engine to run the handlers on *)
(* ===================================================================== *)

(** Dates in the format the application writes, that of [toISOString]:
    the 24 characters of [YYYY-MM-DDTHH:mm:ss.sssZ] for the years 0 to
    9999, the year with a sign and six digits otherwise. Of the strings
    that the platform reads as dates, those of 24 characters are read
    here; the others are taken as invalid. *)
Module IsoDate.

Definition ms_per_day : Z := 86400000.

(** The civil date of a day number counted from 1970-01-01. *)
Definition civil_from_days (days : Z) : Z * Z * Z :=
  let z := days + 719468 in
  let era := z / 146097 in
  let doe := z mod 146097 in
  let yoe := (doe - doe / 1460 + doe / 36524 - doe / 146096) / 365 in
  let doy := doe - (365 * yoe + yoe / 4 - yoe / 100) in
  let mp := (5 * doy + 2) / 153 in
  let d := doy - (153 * mp + 2) / 5 + 1 in
  let m := if (mp <? 10)%Z then mp + 3 else mp - 9 in
  let y := yoe + era * 400 + (if (m <=? 2)%Z then 1 else 0) in
  (y, m, d).

Definition days_from_civil (y m d : Z) : Z :=
  let y' := if (m <=? 2)%Z then y - 1 else y in
  let era := y' / 400 in
  let yoe := y' mod 400 in
  let mp := if (2 <? m)%Z then m - 3 else m + 9 in
  let doy := (153 * mp + 2) / 5 + d - 1 in
  let doe := yoe * 365 + yoe / 4 - yoe / 100 + doy in
  era * 146097 + doe - 719468.

(** The decimal digits of [n], padded with zeros to [width] digits. *)
Fixpoint padded (width : nat) (n : Z) : string :=
  match width with
  | O => ""
  | S w =>
      padded w (n / 10)
      ++ String (Ascii.ascii_of_N (Z.to_N (48 + n mod 10))) ""
  end.

Definition year_text (y : Z) : string :=
  if (0 <=? y)%Z && (y <=? 9999)%Z then padded 4 y
  else (if (y <? 0)%Z then "-" else "+") ++ padded 6 (Z.abs y).

Definition toISOString (t : Z) : string :=
  let '(y, m, d) := civil_from_days (t / ms_per_day) in
  let r := t mod ms_per_day in
  year_text y ++ "-" ++ padded 2 m ++ "-" ++ padded 2 d ++ "T"
  ++ padded 2 (r / 3600000) ++ ":" ++ padded 2 (r / 60000 mod 60) ++ ":"
  ++ padded 2 (r / 1000 mod 60) ++ "." ++ padded 3 (r mod 1000) ++ "Z".

(** The number written by the [width] digits at the start of [s], and
    what follows them. *)
Fixpoint number_at (width : nat) (acc : Z) (s : string)
  : option (Z * string) :=
  match width with
  | O => Some (acc, s)
  | S w =>
      match s with
      | String c s' =>
          match ParseFloat.digit_of c with
          | Some d => number_at w (10 * acc + d) s'
          | None => None
          end
      | EmptyString => None
      end
  end.

Definition expect (c : ascii) (s : string) : option string :=
  match s with
  | String a s' => if Ascii.eqb a c then Some s' else None
  | EmptyString => None
  end.

Definition parse (s : string) : option Z :=
  '(y, s) ← number_at 4 0 s; s ← expect "-" s;
  '(m, s) ← number_at 2 0 s; s ← expect "-" s;
  '(d, s) ← number_at 2 0 s; s ← expect "T" s;
  '(h, s) ← number_at 2 0 s; s ← expect ":" s;
  '(mi, s) ← number_at 2 0 s; s ← expect ":" s;
  '(sec, s) ← number_at 2 0 s; s ← expect "." s;
  '(ms, s) ← number_at 3 0 s; s ← expect "Z" s;
  if String.eqb s ""
     && (1 <=? m)%Z && (m <=? 12)%Z && (1 <=? d)%Z && (d <=? 31)%Z
     && (h <? 24)%Z && (mi <? 60)%Z && (sec <? 60)%Z
  then
    let t := days_from_civil y m d * ms_per_day
             + h * 3600000 + mi * 60000 + sec * 1000 + ms in
    if String.eqb (toISOString t) (padded 4 y ++ "-" ++ padded 2 m ++ "-"
                                   ++ padded 2 d ++ "T" ++ padded 2 h ++ ":"
                                   ++ padded 2 mi ++ ":" ++ padded 2 sec
                                   ++ "." ++ padded 3 ms ++ "Z")
    then Some t else None
  else None.

(** The time value of a number of milliseconds, [TimeClip]: the number
    without its fraction, and no time beyond 8.64e15 milliseconds from the
    epoch. *)
Definition time_clip (x : number) : option Z :=
  match x with
  | S754_zero _ => Some 0
  | S754_finite neg m e =>
      let v := match e with
               | Zneg k => Zpos m / 2 ^ Zpos k
               | _ => Zpos m * 2 ^ e
               end in
      if (v <=? 8640000000000000)%Z then Some (if neg then - v else v)
      else None
  | _ => None
  end.

(** [new Date(v)] for a value of a JSON body: a string is parsed, a number
    or a boolean is a number of milliseconds, [null] is the epoch. An
    array or an object is read through its text: that of an array of one
    string is the string, and the others are not in the format read
    here. *)
Definition of_json (v : json) : option Z :=
  match v with
  | JStr s => parse s
  | JNum x => time_clip x
  | JBool b => Some (if b then 1 else 0)
  | JNull => Some 0
  | JArr [JStr s] => parse s
  | JArr _ | JObj _ => None
  end.

End IsoDate.

(** An engine in strict mode that takes a finite number for the amount, a
    text for the category, a text or nothing for the note, and the text of
    an integer for a key. *)
Module Strict.

(** The amount in hundredths, rounded half away from zero. *)
Definition hundredths (x : number) : option Z :=
  match x with
  | S754_zero _ => Some 0
  | S754_finite neg m e =>
      let v := match e with
               | Zneg k => (2 * 100 * Zpos m + 2 ^ Zpos k) / 2 ^ (Zpos k + 1)
               | _ => 100 * Zpos m * 2 ^ e
               end in
      Some (if neg then - v else v)
  | _ => None
  end.

Definition decimal_text (h : Z) : string :=
  (if (h <? 0)%Z then "-" else "")
  ++ pretty (Z.abs h / 100) ++ "." ++ IsoDate.padded 2 (Z.abs h mod 100).

Definition converted (amount category : json) (note : option json)
  (date : string) : string + Db.row :=
  match amount, category with
  | JNum x, JStr c =>
      match hundredths x with
      | Some h =>
          if (Z.abs h <? 10 ^ 10)%Z && (String.length c <=? 255)%nat then
            match note with
            | None | Some JNull =>
                inr (Db.mkRow (decimal_text h) c None date)
            | Some (JStr n) =>
                inr (Db.mkRow (decimal_text h) c (Some n) date)
            | _ => inl "Incorrect string value for column 'note'"
            end
          else inl "Out of range value"
      | None => inl "Incorrect decimal value for column 'amount'"
      end
  | _, _ => inl "Incorrect value"
  end.

Definition key_of (id : string) : string + Z :=
  match ParseFloat.digits 0 0 id with
  | (k, n, EmptyString) =>
      if (0 <? n)%Z then inr k
      else inl "Truncated incorrect DOUBLE value"
  | _ => inl "Truncated incorrect DOUBLE value"
  end.

Definition engine : Db.engine := Db.mkEngine converted key_of.

End Strict.

(* ===================================================================== *)
(** ** More of the home screen *)
(* ===================================================================== *)

(** [Math.min] of two numbers: [NaN] when either is, and [-0] below
    [+0]. *)
Definition Math_min (x y : number) : number :=
  if Num.isNaN x || Num.isNaN y then S754_nan
  else if (x <? y)%num then x
  else if (y <? x)%num then y
  else match x with
       | S754_zero true => x
       | _ => y
       end.

(** The width of the progress bar, in percent:
    [Math.min(percentageUsed, 100)]. *)
Definition progress_width (budget : number) (expenses : list Expense.t)
  : number :=
  Math_min (Home.percentageUsed budget expenses) (Num.of_Z 100).

(** The allowance suggested under the overview, shown when
    [remaining > 0]: [remaining / (budgetType === 'weekly' ? 7 : 4)]. *)
Definition suggested_limit (budgetType : option string) (budget : number)
  (expenses : list Expense.t) : option number :=
  if (Home.remaining budget expenses >? Num.zero)%num then
    Some (Home.remaining budget expenses
          / (match budgetType with
             | Some type =>
                 if String.eqb type "weekly" then Num.of_Z 7 else Num.of_Z 4
             | None => Num.of_Z 4
             end))%num
  else None.

(** The alert under the greeting is shown when the status is not
    [good]. *)
Definition alert_shown (budget : number) (expenses : list Expense.t) : bool :=
  match Home.getBudgetStatus budget expenses with
  | good => false
  | _ => true
  end.

(* ===================================================================== *)
(** ** Where the application starts, [checkOnboardingStatus] *)
(* ===================================================================== *)

(** A stored value used as a condition: a missing key and the empty
    string are falsy, any other text is truthy. *)
Definition stored_truthy (v : option item) : bool :=
  match v with
  | None => false
  | Some (Text s) => negb (String.eqb s "")
  | Some (Json _) => true
  end.

(** [checkOnboardingStatus]: the route the start screen replaces itself
    with. *)
Definition checkOnboardingStatus (st : AsyncStorage) : string :=
  let budgetType := getItem "budget_type" st in
  let budgetAmount := getItem "budget_amount" st in
  if stored_truthy budgetType && stored_truthy budgetAmount then "/(tabs)"
  else if stored_truthy budgetType then "/budget-setup"
  else "/onboarding".

(* ===================================================================== *)
(** ** The expenses screen over the on-device store *)
(* ===================================================================== *)

Module LocalExpenses.

Section Screen.

Variable Date_parse : string -> option Z.

(** [loadExpenses]: the stored expenses, newest first; [None] when the
    stored text cannot be read, and the list shown stays as it is. *)
Definition loadExpenses (st : AsyncStorage) : option (list Expense.t) :=
  match AddExpense.stored_expenses st with
  | Some expensesData =>
      Some (Array_sort (by_date_desc Date_parse) expensesData)
  | None => None
  end.

(** [deleteExpense], once the dialog is answered: [confirmed] is the
    press on Delete. The list written is the one the screen shows, a list
    that was read from the store, without the expenses of that id. *)
Definition deleteExpense (confirmed : bool) (expenseId : string)
  (expenses : list Expense.t) (st : AsyncStorage)
  : list Expense.t * AsyncStorage :=
  if confirmed then
    let updatedExpenses :=
      List.filter
        (fun expense => negb (String.eqb (Expense.id expense) expenseId))
        expenses in
    (updatedExpenses, setItem "expenses" (Json updatedExpenses) st)
  else (expenses, st).

End Screen.

End LocalExpenses.

(* ===================================================================== *)
(** ** Adding an expense against the budget *)
(* ===================================================================== *)

(** The add-expense screen that warns before the budget is overrun, the
    last screen of [src/app/(tabs)/expenses.tsx]. *)
Module BudgetedAdd.

Record pending : Type := mkPending {
  pending_amount : number;
  pending_category : string;
  pending_note : string
}.

(** The state of the screen. *)
Record state : Type := mkState {
  form : AddExpense.form;
  budget : number;
  currentExpenses : number;
  pendingExpense : option pending;
  showBudgetWarning : bool;
  showTipsModal : bool
}.

Inductive action : Type := add | adjust | cancel.

(** [loadBudgetData]: the budget and the total of the stored expenses;
    when the stored text cannot be read the budget is already set and the
    total stays as it is. *)
Definition loadBudgetData (st : AsyncStorage) (s : state) : state :=
  match getItem "expenses" st with
  | Some (Text text) =>
      mkState (form s) (Home.loadBudget st)
        (if String.eqb text "" then Num.zero else currentExpenses s)
        (pendingExpense s) (showBudgetWarning s) (showTipsModal s)
  | Some (Json expenses) =>
      mkState (form s) (Home.loadBudget st) (Home.totalSpent expenses)
        (pendingExpense s) (showBudgetWarning s) (showTipsModal s)
  | None =>
      mkState (form s) (Home.loadBudget st) Num.zero
        (pendingExpense s) (showBudgetWarning s) (showTipsModal s)
  end.

(** [checkBudgetOverflow]; [budget === 0] holds of both zeros. *)
Definition checkBudgetOverflow (s : state) (expenseAmount : number) : bool :=
  if SFeqb (budget s) Num.zero then false
  else ((currentExpenses s + expenseAmount) >? budget s)%num.

Definition getRemainingBudget (s : state) : number :=
  (budget s - currentExpenses s)%num.

Definition clearForm : AddExpense.form := AddExpense.mkForm "" "" "".

Section Handlers.

Variable Date_toISOString : Z -> string.

(** [Number.prototype.toString] *)
Variable Number_toString : number -> string.

(** [addExpenseToStorage] *)
Definition addExpenseToStorage (c : AddExpense.clock) (expenseAmount : number)
  (category noteText : string) (s : state) (st : AsyncStorage)
  : state * outcome :=
  match AddExpense.stored_expenses st with
  | Some expenses =>
      let newExpense :=
        Expense.mk (pretty (AddExpense.now c)) expenseAmount category
          noteText (Date_toISOString (AddExpense.today c)) in
      (mkState clearForm (budget s)
         (currentExpenses s + expenseAmount)%num
         (pendingExpense s) (showBudgetWarning s) (showTipsModal s),
       mkOutcome
         (setItem "expenses"
            (Json (JSON_expenses (expenses ++ [newExpense])%list)) st)
         (Some (Alert "Expense Added!"
                  ("₱" ++ NumberText.toFixed 2 expenseAmount
                   ++ " has been added to your expenses."))) None)
  | None =>
      (s, mkOutcome st (Some (Alert "Error" "Failed to add expense")) None)
  end.

(** [handleAddExpense] *)
Definition handleAddExpense (c : AddExpense.clock) (s : state)
  (st : AsyncStorage) : state * outcome :=
  let expenseAmount := parseFloat (AddExpense.amount (form s)) in
  if Num.isNaN expenseAmount || (expenseAmount <=? Num.zero)%num then
    (s, mkOutcome st
          (Some (Alert "Invalid Amount" "Please enter a valid expense amount"))
          None)
  else if String.eqb (AddExpense.selectedCategory (form s)) "" then
    (s, mkOutcome st
          (Some (Alert "Missing Category" "Please select a category")) None)
  else if checkBudgetOverflow s expenseAmount then
    (mkState (form s) (budget s) (currentExpenses s)
       (Some (mkPending expenseAmount (AddExpense.selectedCategory (form s))
                (trim (AddExpense.note (form s)))))
       true (showTipsModal s),
     mkOutcome st None None)
  else
    addExpenseToStorage c expenseAmount (AddExpense.selectedCategory (form s))
      (trim (AddExpense.note (form s))) s st.

(** [handleBudgetWarningResponse] *)
Definition handleBudgetWarningResponse (c : AddExpense.clock) (a : action)
  (s : state) (st : AsyncStorage) : state * outcome :=
  let closed :=
    mkState (form s) (budget s) (currentExpenses s) (pendingExpense s)
      false (showTipsModal s) in
  let '(s', out) :=
    match a with
    | add =>
        match pendingExpense s with
        | Some p =>
            let '(s1, out) :=
              addExpenseToStorage c (pending_amount p) (pending_category p)
                (pending_note p) closed st in
            (mkState (form s1) (budget s1) (currentExpenses s1)
               (pendingExpense s1) (showBudgetWarning s1) true, out)
        | None => (closed, mkOutcome st None None)
        end
    | adjust =>
        let remaining := getRemainingBudget s in
        (mkState
           (AddExpense.mkForm (Number_toString remaining)
              (AddExpense.selectedCategory (form s))
              (AddExpense.note (form s)))
           (budget s) (currentExpenses s) (pendingExpense s) false
           (showTipsModal s),
         mkOutcome st
           (Some (Alert "Amount Adjusted"
                    ("Amount adjusted to ₱" ++ NumberText.toFixed 2 remaining
                     ++ " to stay within budget."))) None)
    | cancel => (closed, mkOutcome st None None)
    end in
  (mkState (form s') (budget s') (currentExpenses s') None
     (showBudgetWarning s') (showTipsModal s'), out).

End Handlers.

End BudgetedAdd.

(* ===================================================================== *)
(** ** The screens over the API *)
(* ===================================================================== *)

Section ApiScreens.

Variable engine : Db.engine.
Variable Date_of : json -> option Z.
Variable Date_toISOString : Z -> string.

(** [fetchExpenses]: [inl] is the error thrown for a status other than
    200; otherwise [response.data || []]. *)
Definition fetchExpenses (t : Db.table) : (response + payload) * Db.table :=
  let '(res, t') :=
    app engine Date_of Date_toISOString (mkRequest GET ["expenses"] []) t in
  if (status res =? 200)%Z then
    (inr (match sent res with
          | NoContent => Expenses []
          | data => data
          end), t')
  else (inl res, t').

(** [addExpense]: [axios.post(`${API_URL}/expenses`, expense)]; [inl] is
    the rejection of the call, [inr] the data of the response. *)
Definition addExpense (expense : update) (t : Db.table)
  : (response + payload) * Db.table :=
  let '(res, t') :=
    app engine Date_of Date_toISOString
      (mkRequest POST ["expenses"] (update_body expense)) t in
  (if accepted res then inr (sent res) else inl res, t').

(** [deleteExpense]: [axios.delete(`${API_URL}/expenses/${id}`)], the id
    being the key the server sent, written out in decimal. *)
Definition deleteExpense (id : Z) (t : Db.table)
  : (response + unit) * Db.table :=
  let '(res, t') :=
    app engine Date_of Date_toISOString
      (mkRequest DELETE ["expenses"; pretty id] []) t in
  (if accepted res then inr tt else inl res, t').

(** A screen over the API: the expenses it shows as the server sent
    them, the dialog it raised, and the table of the server. *)
Record screen : Type := mkScreen {
  listed : list fetched;
  dialog : option alert;
  served : Db.table
}.

(** [loadExpenses] of the expenses screen: the list is replaced when the
    data is an array. *)
Definition loadExpenses (expenses : list fetched) (t : Db.table) : screen :=
  match fetchExpenses t with
  | (inr (Expenses expensesData), t') => mkScreen expensesData None t'
  | (_, t') =>
      mkScreen expenses
        (Some (Alert "Error"
                 "Failed to fetch expenses. Please check your network connection or try again later."))
        t'
  end.

(** [deleteExpenseHandler]: the expense is deleted and the list loaded
    again. *)
Definition deleteExpenseHandler (expenseId : Z) (expenses : list fetched)
  (t : Db.table) : screen :=
  match deleteExpense expenseId t with
  | (inr _, t') => loadExpenses expenses t'
  | (inl _, t') =>
      mkScreen expenses (Some (Alert "Error" "Failed to delete expense")) t'
  end.

End ApiScreens.

(* ===================================================================== *)
(** ** Order of numbers *)
(* ===================================================================== *)

Section NumberOrder.

Local Ltac cmp_cases :=
  repeat match goal with
    | |- context [Z.compare ?a ?b] => destruct (Z.compare_spec a b)
    | |- context [Pos.compare_cont Eq ?a ?b] =>
        change (Pos.compare_cont Eq a b) with (Pos.compare a b);
        destruct (Pos.compare_spec a b)
    end;
  simpl; try reflexivity; try discriminate; try lia.

Lemma le_trans (x y z : number) :
  (x <=? y)%num = true -> (y <=? z)%num = true -> (x <=? z)%num = true.
Proof.
  unfold Num.le, SFleb, SFcompare.
  destruct x as [sx|sx| |sx mx ex], y as [sy|sy| |sy my ey],
    z as [sz|sz| |sz mz ez];
    try destruct sx; try destruct sy; try destruct sz;
    simpl; try reflexivity; try discriminate;
    cmp_cases.
Qed.

Lemma le_not_lt (x y : number) :
  (x <=? y)%num = true -> (y <? x)%num = false.
Proof.
  unfold Num.le, Num.lt, SFleb, SFltb, SFcompare.
  destruct x as [sx|sx| |sx mx ex], y as [sy|sy| |sy my ey];
    try destruct sx; try destruct sy;
    simpl; try reflexivity; try discriminate;
    cmp_cases.
Qed.

Lemma lt_not_le (x y : number) :
  (x <? y)%num = true -> (y <=? x)%num = false.
Proof.
  unfold Num.le, Num.lt, SFleb, SFltb, SFcompare.
  destruct x as [sx|sx| |sx mx ex], y as [sy|sy| |sy my ey];
    try destruct sx; try destruct sy;
    simpl; try reflexivity; try discriminate;
    cmp_cases.
Qed.

End NumberOrder.

(* ===================================================================== *)
(** ** The budget status *)
(* ===================================================================== *)

(** The rule of the specification decides the status: at most one status
    is related to a percentage and a remainder. *)
Lemma StatusOf_functional (p r : number) (s s' : BudgetStatus) :
  StatusOf p r s -> StatusOf p r s' -> s = s'.
Proof.
  intros H H'; inversion H; inversion H'; subst; congruence.
Qed.

(** C1. The status the home screen computes is the one the ordered
    thresholds give, the first that matches deciding: exceeded when the
    remainder is negative, else critical from 90 percent, warning from 75,
    caution from 50, good below. With a budget of 1000 and the expenses
    300, 300, 300 the total is 900, the remainder 100, the percentage 90
    and the status critical; a remainder of zero never gives exceeded. *)
Theorem getBudgetStatus_first_match :
  (forall budget expenses,
      StatusOf (Home.percentageUsed budget expenses)
        (Home.remaining budget expenses)
        (Home.getBudgetStatus budget expenses))
  /\ (let budget := parseFloat "1000" in
      let expenses := [spend "1" "300"; spend "2" "300"; spend "3" "300"] in
      Home.totalSpent expenses = Num.of_Z 900
      /\ Home.remaining budget expenses = Num.of_Z 100
      /\ Home.percentageUsed budget expenses = Num.of_Z 90
      /\ Home.getBudgetStatus budget expenses = critical)
  /\ (forall budget expenses sign,
         Home.remaining budget expenses = S754_zero sign ->
         Home.getBudgetStatus budget expenses <> exceeded).
Proof.
  split; [|split].
  - intros budget expenses. unfold Home.getBudgetStatus.
    destruct (Home.remaining budget expenses <? Num.zero)%num eqn:Hr;
      [now constructor|].
    destruct (Home.percentageUsed budget expenses >=? Num.of_Z 90)%num eqn:H90;
      [now constructor|].
    destruct (Home.percentageUsed budget expenses >=? Num.of_Z 75)%num eqn:H75;
      [now constructor|].
    destruct (Home.percentageUsed budget expenses >=? Num.of_Z 50)%num eqn:H50;
      now constructor.
  - vm_compute. repeat split.
  - intros budget expenses sign Hzero. unfold Home.getBudgetStatus.
    rewrite Hzero.
    replace (S754_zero sign <? Num.zero)%num with false by now destruct sign.
    repeat case_match; discriminate.
Qed.

Lemma getBudgetStatus_first_match_witness :
  let budget := parseFloat "900" in
  let expenses := [spend "1" "300"; spend "2" "300"; spend "3" "300"] in
  Home.remaining budget expenses = S754_zero false
  /\ Home.getBudgetStatus budget expenses <> exceeded.
Proof.
  split; [reflexivity|].
  apply (proj2 (proj2 getBudgetStatus_first_match)) with (sign := false).
  reflexivity.
Defined.

(** C8. Between two states whose remainder is not negative, a percentage
    at least as large gives a status at least as severe. *)
Theorem getBudgetStatus_monotone (budget1 budget2 : number)
    (expenses1 expenses2 : list Expense.t) :
  (Home.remaining budget1 expenses1 >=? Num.zero)%num = true ->
  (Home.remaining budget2 expenses2 >=? Num.zero)%num = true ->
  (Home.percentageUsed budget1 expenses1
     <=? Home.percentageUsed budget2 expenses2)%num = true ->
  (severity (Home.getBudgetStatus budget1 expenses1)
   <= severity (Home.getBudgetStatus budget2 expenses2))%nat.
Proof.
  intros Hr1 Hr2 Hp. unfold Home.getBudgetStatus.
  rewrite (le_not_lt _ _ Hr1), (le_not_lt _ _ Hr2).
  set (p1 := Home.percentageUsed budget1 expenses1) in *.
  set (p2 := Home.percentageUsed budget2 expenses2) in *.
  assert (Hup : forall bound, (p1 >=? bound)%num = true ->
                              (p2 >=? bound)%num = true)
    by (intros bound Hb; exact (le_trans _ _ _ Hb Hp)).
  destruct (p1 >=? Num.of_Z 90)%num eqn:H90.
  { rewrite (Hup _ H90). simpl. lia. }
  destruct (p1 >=? Num.of_Z 75)%num eqn:H75.
  { rewrite (Hup _ H75). destruct (p2 >=? Num.of_Z 90)%num; simpl; lia. }
  destruct (p1 >=? Num.of_Z 50)%num eqn:H50.
  { rewrite (Hup _ H50).
    destruct (p2 >=? Num.of_Z 90)%num, (p2 >=? Num.of_Z 75)%num; simpl; lia. }
  destruct (p2 >=? Num.of_Z 90)%num, (p2 >=? Num.of_Z 75)%num,
    (p2 >=? Num.of_Z 50)%num; simpl; lia.
Qed.

Lemma getBudgetStatus_monotone_witness :
  let budget := parseFloat "1000" in
  let expenses1 := [spend "1" "300"; spend "2" "300"] in
  let expenses2 := [spend "1" "300"; spend "2" "300"; spend "3" "300"] in
  Home.getBudgetStatus budget expenses1 = caution
  /\ Home.getBudgetStatus budget expenses2 = critical
  /\ (severity (Home.getBudgetStatus budget expenses1)
      <= severity (Home.getBudgetStatus budget expenses2))%nat.
Proof.
  split; [reflexivity|]. split; [reflexivity|].
  apply getBudgetStatus_monotone; reflexivity.
Defined.

(* ===================================================================== *)
(** ** No budget *)
(* ===================================================================== *)

(** C4, as the specification states it, fails with nothing stored and
    nothing spent: the percentage is then the number 0, not a value
    outside the numbers, and the remainder is 0. *)
Lemma no_budget_counterexample :
  ~ (forall (st : AsyncStorage) (expenses : list Expense.t),
        getItem "budget_amount" st = None ->
        Num.isNaN (Home.percentageUsed (Home.loadBudget st) expenses) = true
        /\ (Home.remaining (Home.loadBudget st) expenses <=? Num.zero)%num
           = false).
Proof.
  intros H. destruct (H ∅ []) as [Hnan _]; [reflexivity|].
  vm_compute in Hnan. discriminate Hnan.
Qed.

(** C4, amended. When no budget amount is stored the budget is 0, and when
    the budget is 0 the percentage is the number 0, the division being
    skipped, and the remainder is the number 0 - total: negative exactly
    when the total is positive. *)
Theorem no_budget_reported_as_numbers :
  forall (st : AsyncStorage) (expenses : list Expense.t),
    getItem "budget_amount" st = None
    \/ (exists sign, Home.loadBudget st = S754_zero sign) ->
    exists sign,
      Home.loadBudget st = S754_zero sign
      /\ Home.percentageUsed (Home.loadBudget st) expenses = Num.zero
      /\ Home.remaining (Home.loadBudget st) expenses
         = (S754_zero sign - Home.totalSpent expenses)%num
      /\ (Home.remaining (Home.loadBudget st) expenses <? Num.zero)%num
         = (Num.zero <? Home.totalSpent expenses)%num.
Proof.
  intros st expenses Hst.
  assert (Hz : exists sign, Home.loadBudget st = S754_zero sign).
  { destruct Hst as [Hnone|Hz]; [|exact Hz].
    exists false. unfold Home.loadBudget. now rewrite Hnone. }
  destruct Hz as [sign Hz]. exists sign. rewrite Hz.
  split; [reflexivity|]. split; [now destruct sign|].
  split; [reflexivity|].
  unfold Home.remaining.
  destruct (Home.totalSpent expenses) as [s|s| |s m e], sign;
    try destruct s; reflexivity.
Qed.

Lemma no_budget_reported_as_numbers_witness :
  exists sign,
    Home.loadBudget ∅ = S754_zero sign
    /\ Home.percentageUsed (Home.loadBudget ∅) [spend "1" "300"] = Num.zero
    /\ Home.remaining (Home.loadBudget ∅) [spend "1" "300"]
       = (S754_zero sign - Home.totalSpent [spend "1" "300"])%num
    /\ (Home.remaining (Home.loadBudget ∅) [spend "1" "300"] <? Num.zero)%num
       = (Num.zero <? Home.totalSpent [spend "1" "300"])%num.
Proof.
  apply (no_budget_reported_as_numbers ∅ [spend "1" "300"]).
  left. reflexivity.
Defined.

(* ===================================================================== *)
(** ** The total spent *)
(* ===================================================================== *)

Lemma fold_amounts (expenses : list Expense.t) (start : number) :
  fold_left (fun sum expense => (sum + Expense.amount expense)%num)
    expenses start
  = fold_left Num.add (map Expense.amount expenses) start.
Proof.
  revert start. induction expenses as [|e expenses IH]; intros start.
  - reflexivity.
  - simpl. apply IH.
Qed.

(** C6, as the specification states it, fails: the amounts 0.1, 0.2 and
    0.3 add up to 0.6000000000000001 in that order and to 0.6 in the
    reverse order. *)
Lemma totalSpent_order_counterexample :
  ~ (forall expenses expenses' : list Expense.t,
        Permutation expenses expenses' ->
        Home.totalSpent expenses = Home.totalSpent expenses').
Proof.
  intros H.
  specialize (H [spend "1" "0.1"; spend "2" "0.2"; spend "3" "0.3"]
                [spend "3" "0.3"; spend "2" "0.2"; spend "1" "0.1"]).
  assert (Hp : Permutation
                 [spend "1" "0.1"; spend "2" "0.2"; spend "3" "0.3"]
                 [spend "3" "0.3"; spend "2" "0.2"; spend "1" "0.1"]).
  { apply (Permutation_rev [_; _; _]). }
  specialize (H Hp). vm_compute in H. discriminate H.
Qed.

(* ===================================================================== *)
(** ** Whole amounts add up exactly *)
(* ===================================================================== *)

Section WholeAmounts.

Local Open Scope Z_scope.

Lemma digits2_bounds (p : positive) :
  2 ^ (Zpos (digits2_pos p) - 1) <= Zpos p < 2 ^ Zpos (digits2_pos p).
Proof.
  induction p as [p IH|p IH|]; simpl digits2_pos.
  - rewrite Pos2Z.inj_succ.
    replace (Z.succ (Zpos (digits2_pos p)) - 1) with (Zpos (digits2_pos p)) by lia.
    rewrite Z.pow_succ_r by lia.
    replace (Zpos (digits2_pos p)) with (Z.succ (Zpos (digits2_pos p) - 1)) at 1 by lia.
    rewrite Z.pow_succ_r by lia. lia.
  - rewrite Pos2Z.inj_succ.
    replace (Z.succ (Zpos (digits2_pos p)) - 1) with (Zpos (digits2_pos p)) by lia.
    rewrite Z.pow_succ_r by lia.
    replace (Zpos (digits2_pos p)) with (Z.succ (Zpos (digits2_pos p) - 1)) at 1 by lia.
    rewrite Z.pow_succ_r by lia. lia.
  - simpl. lia.
Qed.

Lemma digits2_unique (p : positive) (d : Z) :
  2 ^ (d - 1) <= Zpos p < 2 ^ d -> Zpos (digits2_pos p) = d.
Proof.
  intros [Hlo Hhi]. pose proof (digits2_bounds p) as [Hlo' Hhi'].
  assert (Hd : 0 < d).
  { destruct (Z.lt_trichotomy d 0) as [Hneg|[Hz|Hpos]]; [|subst d; simpl in Hhi; lia|exact Hpos].
    rewrite (Z.pow_neg_r 2 d Hneg) in Hhi. lia. }
  destruct (Z.lt_trichotomy (Zpos (digits2_pos p)) d) as [Hlt|[Heq|Hgt]];
    [|exact Heq|].
  - assert (2 ^ Zpos (digits2_pos p) <= 2 ^ (d - 1))
      by (apply Z.pow_le_mono_r; lia).
    lia.
  - assert (2 ^ d <= 2 ^ (Zpos (digits2_pos p) - 1))
      by (apply Z.pow_le_mono_r; lia).
    lia.
Qed.

Lemma digits2_scaled (M c : positive) (k : Z) :
  0 <= k -> Zpos M = Zpos c * 2 ^ k ->
  Zpos (digits2_pos M) = Zpos (digits2_pos c) + k.
Proof.
  intros Hk HM. apply digits2_unique. rewrite HM.
  pose proof (digits2_bounds c) as [Hlo Hhi].
  assert (Hpow : 0 < 2 ^ k) by (apply Z.pow_pos_nonneg; lia).
  replace (Zpos (digits2_pos c) + k - 1) with ((Zpos (digits2_pos c) - 1) + k)
    by lia.
  rewrite !Z.pow_add_r by lia. nia.
Qed.

Lemma iter_xO_pow (m s : positive) :
  Zpos (Pos.iter xO m s) = Zpos m * 2 ^ Zpos s.
Proof.
  induction s as [|s IH] using Pos.peano_ind.
  - simpl. lia.
  - rewrite Pos.iter_succ, Pos2Z.inj_succ, Z.pow_succ_r by lia.
    rewrite Pos2Z.inj_xO, IH. lia.
Qed.

Lemma iter_pos_iter {A : Type} (f : A -> A) (n : positive) (x : A) :
  SpecFloat.iter_pos f n x = Pos.iter f x n.
Proof.
  revert x. induction n as [n IH|n IH|]; intros x; simpl.
  - rewrite !IH. now rewrite !Pos.iter_swap.
  - now rewrite !IH.
  - reflexivity.
Qed.

Lemma shr_trailing_zeros (m s : positive) :
  SpecFloat.iter_pos shr_1 s (Build_shr_record (Zpos (Pos.iter xO m s)) false false)
  = Build_shr_record (Zpos m) false false.
Proof.
  rewrite iter_pos_iter.
  induction s as [|s IH] using Pos.peano_ind.
  - reflexivity.
  - rewrite Pos.iter_succ_r. rewrite Pos.iter_succ. simpl shr_1. exact IH.
Qed.


Lemma canonical_digits (c : positive) :
  Zpos c < 2 ^ 53 -> 1 <= Zpos (digits2_pos c) <= 53.
Proof.
  intros Hc. pose proof (digits2_bounds c) as [Hlo _]. split; [lia|].
  destruct (Z.le_gt_cases (Zpos (digits2_pos c)) 53) as [Hle|Hgt]; [exact Hle|].
  assert (2 ^ 53 <= 2 ^ (Zpos (digits2_pos c) - 1))
    by (apply Z.pow_le_mono_r; lia).
  lia.
Qed.

Lemma canonical_mantissa_value (c : positive) :
  Zpos c < 2 ^ 53 ->
  Zpos (Z.to_pos (Zpos c * 2 ^ (53 - Zpos (digits2_pos c))))
  = Zpos c * 2 ^ (53 - Zpos (digits2_pos c))
  /\ Zpos (digits2_pos
             (Z.to_pos (Zpos c * 2 ^ (53 - Zpos (digits2_pos c))))) = 53.
Proof.
  intros Hc. pose proof (canonical_digits c Hc) as Hd.
  assert (Hpow : 0 < 2 ^ (53 - Zpos (digits2_pos c)))
    by (apply Z.pow_pos_nonneg; lia).
  assert (Hval : Zpos (Z.to_pos (Zpos c * 2 ^ (53 - Zpos (digits2_pos c))))
                 = Zpos c * 2 ^ (53 - Zpos (digits2_pos c)))
    by (apply Z2Pos.id; nia).
  split; [exact Hval|].
  rewrite (digits2_scaled _ c (53 - Zpos (digits2_pos c))); [lia|lia|exact Hval].
Qed.

(** A mantissa of 53 digits with an exponent in range is not rounded. *)
Lemma round_aux_canonical (m : positive) (t : Z) :
  Zpos (digits2_pos m) = 53 -> -1074 <= t <= 971 ->
  binary_round_aux Num.prec Num.emax false (Zpos m) t loc_Exact
  = S754_finite false m t.
Proof.
  intros Hm Ht.
  assert (H0 : Z.max (53 + t - 53) (3 - 1024 - 53) - t = 0) by lia.
  unfold binary_round_aux, shr_fexp, fexp, emin, Num.prec, Num.emax.
  simpl Zdigits2. rewrite Hm, H0. simpl. rewrite Hm, H0. simpl.
  replace (t <=? 1024 - 53) with true by (symmetry; apply Z.leb_le; lia).
  reflexivity.
Qed.

(** Trailing zeros beyond the 53 digits are shifted out without loss. *)
Lemma round_aux_shift (m s : positive) (e : Z) :
  Zpos (digits2_pos m) = 53 -> -1074 <= e + Zpos s <= 971 ->
  binary_round_aux Num.prec Num.emax false (Zpos (Pos.iter xO m s)) e loc_Exact
  = S754_finite false m (e + Zpos s).
Proof.
  intros Hm Ht.
  assert (Hd : Zpos (digits2_pos (Pos.iter xO m s)) = 53 + Zpos s).
  { rewrite (digits2_scaled _ m (Zpos s)); [lia|lia|apply iter_xO_pow]. }
  assert (Hs : Z.max (53 + Zpos s + e - 53) (3 - 1024 - 53) - e = Zpos s)
    by lia.
  assert (H0 : Z.max (53 + (e + Zpos s) - 53) (3 - 1024 - 53) - (e + Zpos s)
               = 0) by lia.
  unfold binary_round_aux, shr_fexp, fexp, emin, Num.prec, Num.emax.
  simpl Zdigits2. rewrite Hd, Hs.
  unfold shr at 1. cbn [shr_record_of_loc]. rewrite !shr_trailing_zeros.
  simpl. rewrite Hm, H0. simpl.
  replace (e + Zpos s <=? 1024 - 53) with true
    by (symmetry; apply Z.leb_le; lia).
  reflexivity.
Qed.

(** An integer below 2^53, however it is written as a mantissa and a
    non-positive exponent, is normalised to its canonical form. *)
Lemma normalize_exact (M c : positive) (ez : Z) :
  ez <= 0 -> -1074 <= ez ->
  Zpos M = Zpos c * 2 ^ (- ez) ->
  Zpos c < 2 ^ 53 ->
  binary_normalize Num.prec Num.emax (Zpos M) ez false = Num.canonical c.
Proof.
  intros Hez Hez' HM Hc.
  pose proof (canonical_digits c Hc) as Hd.
  pose proof (canonical_mantissa_value c Hc) as [Hval Hdig].
  pose proof (digits2_scaled M c (- ez) ltac:(lia) HM) as HdM.
  unfold binary_normalize, binary_round, Num.canonical.
  assert (Hfexp : fexp Num.prec Num.emax (Zpos (digits2_pos M) + ez)
                  = Zpos (digits2_pos c) - 53).
  { unfold fexp, emin, Num.prec, Num.emax. rewrite HdM. lia. }
  rewrite Hfexp. unfold shl_align.
  set (t := Zpos (digits2_pos c) - 53) in *.
  assert (Hsplit : 2 ^ (53 - Zpos (digits2_pos c)) = 2 ^ (- t))
    by (f_equal; unfold t; lia).
  destruct (t - ez) as [|s|s] eqn:Hs.
  - assert (ez = t) by lia. subst ez.
    assert (M = Z.to_pos (Zpos c * 2 ^ (53 - Zpos (digits2_pos c)))) as ->.
    { apply Pos2Z.inj. rewrite Hval, HM, Hsplit. reflexivity. }
    apply round_aux_canonical; [exact Hdig|lia].
  - assert (M = Pos.iter xO
                  (Z.to_pos (Zpos c * 2 ^ (53 - Zpos (digits2_pos c)))) s) as ->.
    { apply Pos2Z.inj. rewrite iter_xO_pow, Hval, HM, Hsplit.
      rewrite <- Z.mul_assoc, <- Z.pow_add_r by lia. do 2 f_equal. lia. }
    rewrite round_aux_shift; [|exact Hdig|lia].
    f_equal. lia.
  - assert (Pos.iter xO M s
            = Z.to_pos (Zpos c * 2 ^ (53 - Zpos (digits2_pos c)))) as ->.
    { apply Pos2Z.inj. rewrite iter_xO_pow, Hval, HM, Hsplit.
      rewrite <- Z.mul_assoc, <- Z.pow_add_r by lia. do 2 f_equal. lia. }
    apply round_aux_canonical; [exact Hdig|lia].
Qed.

Lemma of_Z_canonical (c : positive) :
  Zpos c < 2 ^ 53 -> Num.of_Z (Zpos c) = Num.canonical c.
Proof.
  intros Hc. unfold Num.of_Z.
  apply normalize_exact; [lia|lia|simpl; lia|exact Hc].
Qed.

Lemma shl_align_value (m : positive) (e ez : Z) :
  ez <= e ->
  Zpos (fst (shl_align m e ez)) = Zpos m * 2 ^ (e - ez).
Proof.
  intros Hle. unfold shl_align.
  destruct (ez - e) as [|s|s] eqn:Hs; simpl.
  - replace (e - ez) with 0 by lia. simpl. lia.
  - lia.
  - rewrite iter_xO_pow. do 2 f_equal. lia.
Qed.

Lemma add_canonical (a b : positive) :
  Zpos a + Zpos b < 2 ^ 53 ->
  (Num.canonical a + Num.canonical b)%num = Num.canonical (a + b).
Proof.
  intros Hsum.
  assert (Ha : Zpos a < 2 ^ 53) by lia.
  assert (Hb : Zpos b < 2 ^ 53) by lia.
  pose proof (canonical_digits a Ha) as Hda.
  pose proof (canonical_digits b Hb) as Hdb.
  pose proof (canonical_mantissa_value a Ha) as [Hva _].
  pose proof (canonical_mantissa_value b Hb) as [Hvb _].
  unfold Num.add, Num.canonical at 1 2, SFadd, cond_Zopp.
  set (ea := Zpos (digits2_pos a) - 53) in *.
  set (eb := Zpos (digits2_pos b) - 53) in *.
  set (ma := Z.to_pos (Zpos a * 2 ^ (53 - Zpos (digits2_pos a)))) in *.
  set (mb := Z.to_pos (Zpos b * 2 ^ (53 - Zpos (digits2_pos b)))) in *.
  set (ez := Z.min ea eb).
  assert (Hza : Zpos (fst (shl_align ma ea ez)) = Zpos a * 2 ^ (- ez)).
  { rewrite shl_align_value by (unfold ez; lia). rewrite Hva.
    rewrite <- Z.mul_assoc, <- Z.pow_add_r by (unfold ea, ez; lia).
    do 2 f_equal. unfold ea. lia. }
  assert (Hzb : Zpos (fst (shl_align mb eb ez)) = Zpos b * 2 ^ (- ez)).
  { rewrite shl_align_value by (unfold ez; lia). rewrite Hvb.
    rewrite <- Z.mul_assoc, <- Z.pow_add_r by (unfold eb, ez; lia).
    do 2 f_equal. unfold eb. lia. }
  change (Zpos (fst (shl_align ma ea ez)) + Zpos (fst (shl_align mb eb ez)))
    with (Zpos (fst (shl_align ma ea ez) + fst (shl_align mb eb ez))).
  apply normalize_exact.
  - unfold ez, ea, eb. lia.
  - unfold ez, ea, eb. lia.
  - rewrite Pos2Z.inj_add, Hza, Hzb, Pos2Z.inj_add. ring.
  - rewrite Pos2Z.inj_add. exact Hsum.
Qed.

(** Whole numbers that stay below 2^53 are added without rounding. *)
Lemma add_of_Z (a b : Z) :
  0 <= a -> 0 <= b -> a + b < 2 ^ 53 ->
  (Num.of_Z a + Num.of_Z b)%num = Num.of_Z (a + b).
Proof.
  intros Ha Hb Hsum.
  destruct a as [|a|a]; [|destruct b as [|b|b]|]; try lia.
  - destruct b as [|b|b]; try lia; [reflexivity|].
    change (0 + Zpos b) with (Zpos b).
    rewrite of_Z_canonical by lia. reflexivity.
  - rewrite Z.add_0_r. rewrite of_Z_canonical by lia. reflexivity.
  - rewrite !of_Z_canonical by lia.
    change (Zpos a + Zpos b) with (Zpos (a + b)).
    rewrite of_Z_canonical by (rewrite Pos2Z.inj_add; lia).
    now apply add_canonical.
Qed.

Lemma sum_Z_nonneg (pesos : list Z) :
  Forall (fun n => 0 <= n) pesos -> 0 <= sum_Z pesos.
Proof.
  induction 1 as [|n pesos Hn _ IH]; [reflexivity|].
  change (sum_Z (n :: pesos)) with (n + sum_Z pesos). lia.
Qed.

Lemma fold_add_of_Z (pesos : list Z) (acc : Z) :
  Forall (fun n => 0 <= n) pesos -> 0 <= acc ->
  acc + sum_Z pesos < 2 ^ 53 ->
  fold_left Num.add (map Num.of_Z pesos) (Num.of_Z acc)
  = Num.of_Z (acc + sum_Z pesos).
Proof.
  revert acc. induction pesos as [|n pesos IH]; intros acc Hpos Hacc Hsum.
  - simpl. now rewrite Z.add_0_r.
  - apply Forall_cons in Hpos as [Hn Hpos].
    change (sum_Z (n :: pesos)) with (n + sum_Z pesos) in *.
    pose proof (sum_Z_nonneg pesos Hpos).
    cbn [map fold_left].
    rewrite add_of_Z by lia. rewrite IH; [f_equal; lia|exact Hpos|lia|lia].
Qed.

Lemma sum_Z_perm (l l' : list Z) :
  Permutation l l' -> sum_Z l = sum_Z l'.
Proof.
  induction 1 as [|x l l' _ IH|x y l|l l' l'' _ IH _ IH'];
    try change (sum_Z (x :: l)) with (x + sum_Z l);
    try change (sum_Z (x :: l')) with (x + sum_Z l');
    try change (sum_Z (y :: x :: l)) with (y + (x + sum_Z l));
    try change (sum_Z (x :: y :: l)) with (x + (y + sum_Z l));
    lia.
Qed.

End WholeAmounts.

(** C6, amended. The total is the sum of the amounts taken from left to
    right in the order of the list, starting from 0, each addition rounded
    to a number, on the home screen and on the expenses screen alike. When
    the amounts are whole numbers whose sum is below 2^53 no addition
    rounds: the total is the sum of the individual amounts, and it is the
    same for every permutation of the list. *)
Theorem totalSpent_whole_amounts :
  (forall expenses : list Expense.t,
      Home.totalSpent expenses
      = fold_left Num.add (map Expense.amount expenses) Num.zero
      /\ totalExpenses expenses = Home.totalSpent expenses)
  /\ (forall (expenses expenses' : list Expense.t) (pesos : list Z),
         map Expense.amount expenses = map Num.of_Z pesos ->
         Forall (fun n => (0 <= n)%Z) pesos ->
         (sum_Z pesos < 2 ^ 53)%Z ->
         Permutation expenses expenses' ->
         Home.totalSpent expenses = Num.of_Z (sum_Z pesos)
         /\ Home.totalSpent expenses' = Home.totalSpent expenses).
Proof.
  split.
  - intros expenses. unfold Home.totalSpent, totalExpenses.
    now rewrite fold_amounts.
  - assert (Hexact : forall (expenses : list Expense.t) (pesos : list Z),
               map Expense.amount expenses = map Num.of_Z pesos ->
               Forall (fun n => (0 <= n)%Z) pesos ->
               (sum_Z pesos < 2 ^ 53)%Z ->
               Home.totalSpent expenses = Num.of_Z (sum_Z pesos)).
    { intros expenses pesos Hamounts Hpos Hsum.
      unfold Home.totalSpent. rewrite fold_amounts, Hamounts.
      change Num.zero with (Num.of_Z 0).
      now rewrite fold_add_of_Z by (assumption || lia). }
    intros expenses expenses' pesos Hamounts Hpos Hsum Hperm.
    split; [now apply Hexact|].
    rewrite (Hexact expenses pesos) by assumption.
    assert (Hperm' : Permutation (map Expense.amount expenses')
                       (map Num.of_Z pesos)).
    { rewrite <- Hamounts. apply Permutation_map. now symmetry. }
    apply Permutation_map_inv in Hperm' as (pesos' & Hamounts' & Hpesos).
    rewrite (sum_Z_perm _ _ Hpesos).
    apply Hexact; [exact Hamounts'| |].
    + eapply Permutation_Forall; [exact Hpesos|exact Hpos].
    + now rewrite <- (sum_Z_perm _ _ Hpesos).
Qed.

Lemma totalSpent_whole_amounts_witness :
  let expenses := [spend "1" "300"; spend "2" "25"; spend "3" "120"] in
  let expenses' := [spend "3" "120"; spend "1" "300"; spend "2" "25"] in
  Home.totalSpent expenses = Num.of_Z 445
  /\ Home.totalSpent expenses' = Home.totalSpent expenses.
Proof.
  apply (proj2 totalSpent_whole_amounts
           [spend "1" "300"; spend "2" "25"; spend "3" "120"]
           [spend "3" "120"; spend "1" "300"; spend "2" "25"]
           [300; 25; 120]%Z).
  - reflexivity.
  - repeat constructor; lia.
  - reflexivity.
  - symmetry. apply (Permutation_cons_append [_; _]).
Defined.

(* ===================================================================== *)
(** ** Setting the budget *)
(* ===================================================================== *)

Lemma positive_passes (x : number) :
  (x >? Num.zero)%num = true ->
  Num.isNaN x || (x <=? Num.zero)%num = false.
Proof.
  intros Hpos. rewrite (lt_not_le _ _ Hpos).
  destruct x; try reflexivity; discriminate Hpos.
Qed.

(** C10. Saving a positive budget amount overwrites the stored expenses
    with the empty list, whatever was stored: the amount is written as
    entered, the budget type is left as it was, and the screen moves on to
    the tabs. *)
Theorem handleSetBudget_erases_expenses (budgetAmount : string)
    (st : AsyncStorage) :
  (parseFloat budgetAmount >? Num.zero)%num = true ->
  let out := handleSetBudget budgetAmount st in
  getItem "expenses" (storage out) = Some (Json [])
  /\ getItem "budget_amount" (storage out) = Some (Text budgetAmount)
  /\ getItem "budget_type" (storage out) = getItem "budget_type" st
  /\ raised out = None
  /\ navigated out = Some "/(tabs)".
Proof.
  intros Hpos. unfold handleSetBudget. rewrite (positive_passes _ Hpos).
  simpl. unfold getItem, setItem. repeat split.
  - apply lookup_insert_eq.
  - rewrite lookup_insert_ne by discriminate. apply lookup_insert_eq.
  - rewrite !lookup_insert_ne by discriminate. reflexivity.
Qed.

Lemma handleSetBudget_erases_expenses_witness :
  let st : AsyncStorage :=
    {[ "budget_type" := Text "weekly";
       "budget_amount" := Text "1000";
       "expenses" := Json [spend "1" "300"; spend "2" "300"] ]} in
  let out := handleSetBudget "1000" st in
  getItem "expenses" st = Some (Json [spend "1" "300"; spend "2" "300"])
  /\ getItem "expenses" (storage out) = Some (Json [])
  /\ getItem "budget_amount" (storage out) = Some (Text "1000")
  /\ getItem "budget_type" (storage out) = getItem "budget_type" st
  /\ raised out = None
  /\ navigated out = Some "/(tabs)".
Proof.
  split; [reflexivity|].
  apply handleSetBudget_erases_expenses. reflexivity.
Defined.

(** An amount that is not positive leaves the store as it was. *)
Lemma handleSetBudget_rejects (budgetAmount : string) (st : AsyncStorage) :
  Num.isNaN (parseFloat budgetAmount)
  || (parseFloat budgetAmount <=? Num.zero)%num = true ->
  storage (handleSetBudget budgetAmount st) = st
  /\ navigated (handleSetBudget budgetAmount st) = None.
Proof.
  intros Hbad. unfold handleSetBudget. rewrite Hbad. split; reflexivity.
Qed.

(* ===================================================================== *)
(** ** The HTTP API *)
(* ===================================================================== *)

Section ServerFacts.

Variable engine : Db.engine.
Variable Date_of : json -> option Z.
Variable Date_toISOString : Z -> string.

Local Abbreviation app := (app engine Date_of Date_toISOString).
Local Abbreviation post_expenses :=
  (post_expenses engine Date_of Date_toISOString).
Local Abbreviation serve := (serve engine Date_of Date_toISOString).

(** No route is registered for [PUT]. *)
Lemma put_not_found (path : list string) (b : body) (t : Db.table) :
  app (mkRequest PUT path b) t = (mkResponse 404 (Message "Not Found"), t).
Proof. reflexivity. Qed.

(** A body without a truthy amount, category or date is answered 400 and
    nothing is written. *)
Lemma post_expenses_rejects (b : body) (t : Db.table) :
  truthy (field "amount" b) = false
  \/ truthy (field "category" b) = false
  \/ truthy (field "date" b) = false ->
  post_expenses b t
  = (mkResponse 400
       (Message "Invalid data. Amount, category, and date are required."),
     t).
Proof.
  intros H. unfold post_expenses.
  destruct H as [-> | [-> | ->]]; simpl;
    rewrite ?orb_true_r; reflexivity.
Qed.

(** A body whose amount is a negative number, with a category and a date,
    passes the validation: it is never answered 400. *)
Lemma post_expenses_negative_not_rejected (b : body) (t : Db.table)
    (x : number) :
  field "amount" b = Some (JNum x) ->
  (x <? Num.zero)%num = true ->
  truthy (field "category" b) = true ->
  truthy (field "date" b) = true ->
  status (fst (post_expenses b t)) <> 400.
Proof.
  intros Ha Hx Hc Hd. unfold post_expenses.
  rewrite Ha, Hc, Hd.
  assert (Ht : truthy (Some (JNum x)) = true)
    by (destruct x as [s|s| |s m e]; try reflexivity; try destruct s;
        discriminate Hx).
  rewrite Ht. simpl.
  destruct (field "category" b) as [c|]; [|discriminate Hc].
  destruct (field "date" b) as [d|]; [|discriminate Hd].
  destruct (Date_of d); [|simpl; discriminate].
  destruct (Db.converted _ _ _ _ _); [simpl; discriminate|].
  destruct (Db.insert _ _) as [|[k t']]; simpl; discriminate.
Qed.

(* ------------------------------------------------------------------- *)
(** *** Deleting *)

Lemma delete_absent (k : Z) (t : Db.table) :
  Db.rows t !! k = None -> Db.delete_where_id k t = t.
Proof.
  intros Habsent. destruct t as [rows next]. unfold Db.delete_where_id.
  simpl in *. now rewrite delete_id.
Qed.

(** [DELETE /expenses/:id] is the route of a path whose second segment is
    not empty. *)
Lemma app_delete (id : string) (b : body) (t : Db.table) :
  id <> "" ->
  app (mkRequest DELETE ["expenses"; id] b) t = delete_expense engine id t.
Proof.
  intros Hid. apply String.eqb_neq in Hid.
  unfold app, routes.
  cbn [dispatch method_eqb route_method route_path handler req_method
         req_path req_body match_path].
  change (same_literal "expenses" "expenses") with true.
  cbn iota. rewrite Hid. reflexivity.
Qed.

(** With nothing after the slash the path is that of [DELETE /expenses],
    the slash at the end being optional: every row is deleted. *)
Lemma app_delete_slash (b : body) (t : Db.table) :
  app (mkRequest DELETE ["expenses"; ""] b) t = delete_expenses t.
Proof. reflexivity. Qed.

(** The case of the letters and a slash at the end make no difference to
    the route taken. *)
Example app_ignores_case_and_slash (b : body) (t : Db.table) :
  app (mkRequest GET ["Expenses"; ""] b) t = get_expenses t
  /\ app (mkRequest DELETE ["EXPENSES"; "7"; ""] b) t
     = delete_expense engine "7" t.
Proof. split; reflexivity. Qed.

(** C5, amended. For an id, a path segment that is not empty, that no row
    has, whether the database reads it as a key without a row or rejects
    it, [DELETE /expenses/:id] changes nothing: the table is the one
    before, so the list that a following [GET /expenses] returns is the one
    it returned before, of the same length, every record as it was. The
    answer is 204 when the database reads the id as a key, and 500 when it
    rejects it; it is never 404. *)
Theorem delete_absent_id_is_noop (id : string) (t : Db.table) :
  id <> "" ->
  (forall k, Db.key_of engine id = inr k -> Db.rows t !! k = None) ->
  let '(res, t') := app (mkRequest DELETE ["expenses"; id] []) t in
  (res = mkResponse 204 NoContent <-> exists k, Db.key_of engine id = inr k)
  /\ (status res = 500 <-> exists err, Db.key_of engine id = inl err)
  /\ (status res = 204 \/ status res = 500)
  /\ t' = t
  /\ fst (app (mkRequest GET ["expenses"] []) t')
     = fst (app (mkRequest GET ["expenses"] []) t)
  /\ length (Db.select_all t') = length (Db.select_all t)
  /\ (forall k' r, Db.rows t !! k' = Some r -> Db.rows t' !! k' = Some r).
Proof.
  intros Hid Habsent. rewrite (app_delete _ _ _ Hid). unfold delete_expense.
  destruct (Db.key_of engine id) as [err|k] eqn:Hkey.
  - split; [split; [intros [=]|intros [k [=]]]|].
    split; [split; [eauto|reflexivity]|].
    split; [now right|]. auto.
  - rewrite (delete_absent _ _ (Habsent k eq_refl)).
    split; [split; [eauto|reflexivity]|].
    split; [split; [intros [=]|intros [err [=]]]|].
    split; [now left|]. auto.
Qed.

(** Deleting an id that a row has removes that row and no other. *)
Lemma delete_present_frame (id : string) (k : Z) (t : Db.table) :
  id <> "" ->
  Db.key_of engine id = inr k ->
  let '(res, t') := app (mkRequest DELETE ["expenses"; id] []) t in
  res = mkResponse 204 NoContent
  /\ Db.rows t' !! k = None
  /\ (forall k', k' <> k -> Db.rows t' !! k' = Db.rows t !! k').
Proof.
  intros Hid Hkey. rewrite (app_delete _ _ _ Hid). unfold delete_expense.
  rewrite Hkey.
  simpl. split; [reflexivity|]. split.
  - apply lookup_delete_eq.
  - intros k' Hne. now apply lookup_delete_ne.
Qed.

(* ------------------------------------------------------------------- *)
(** *** Keys of created rows *)

Lemma insert_fresh (r : Db.row) (t t' : Db.table) (k : Z) :
  Db.insert r t = inr (k, t') ->
  k = Db.auto_increment t
  /\ Db.rows t !! k = None
  /\ Db.rows t' = <[k := r]> (Db.rows t)
  /\ Db.auto_increment t' = k + 1.
Proof.
  unfold Db.insert. destruct (Db.rows t !! Db.auto_increment t) eqn:Hk.
  - discriminate.
  - intros [= <- <-]. auto.
Qed.

Lemma app_cases (req : request) (t : Db.table) :
  app req t = get_expenses t
  \/ app req t = post_expenses (req_body req) t
  \/ (exists id, app req t = delete_expense engine id t)
  \/ app req t = delete_expenses t
  \/ app req t = (mkResponse 404 (Message "Not Found"), t).
Proof.
  destruct req as [m path b]. unfold app, routes.
  destruct m;
    cbn [dispatch method_eqb route_method route_path handler req_method
           req_path req_body];
    destruct path as [|p [|id [|q [|? ?]]]]; cbn [match_path];
    try destruct (same_literal "expenses" p);
    try destruct (String.eqb id "");
    try destruct (String.eqb q "");
    eauto 6.
Qed.

(** What a request does to the table: the counter never decreases and
    the keys stay below it; a row is reported created only under the
    key the counter held, which no row had. *)
Lemma app_step (req : request) (t : Db.table) :
  Db.consistent t ->
  Db.consistent (snd (app req t))
  /\ Db.auto_increment t <= Db.auto_increment (snd (app req t))
  /\ (forall k, created_key (fst (app req t)) = Some k ->
                k = Db.auto_increment t
                /\ Db.rows t !! k = None
                /\ Db.auto_increment (snd (app req t)) = k + 1).
Proof.
  intros Hc.
  destruct (app_cases req t) as [-> | [-> | [[id ->] | [-> | ->]]]].
  - simpl. split; [exact Hc|]. split; [lia|]. discriminate.
  - unfold post_expenses.
    repeat case_match; simpl;
      try (split; [exact Hc|]; split; [lia|]; discriminate).
    match goal with H : Db.insert _ _ = inr _ |- _ =>
      apply insert_fresh in H; destruct H as (-> & Hnone & Hrows & Hnext)
    end.
    split; [|split].
    + intros k' r'. rewrite Hrows, Hnext.
      destruct (decide (k' = Db.auto_increment t)) as [->|Hne].
      * intros _. lia.
      * rewrite lookup_insert_ne by congruence.
        intros Hk'. apply Hc in Hk'. lia.
    + lia.
    + intros k' [= <-]. auto.
  - unfold delete_expense. case_match; simpl.
    + split; [exact Hc|]. split; [lia|]. discriminate.
    + split; [|split; [lia|discriminate]].
      intros k' r'. simpl. intros Hk'.
      apply lookup_delete_Some in Hk' as [_ Hk']. now apply Hc in Hk'.
  - simpl. split; [|split; [lia|discriminate]].
    intros k' r'. simpl. rewrite lookup_empty. discriminate.
  - simpl. split; [exact Hc|]. split; [lia|]. discriminate.
Qed.

Lemma serve_cons (req : request) (reqs : list request) (t : Db.table) :
  serve (req :: reqs) t
  = (fst (app req t) :: fst (serve reqs (snd (app req t))),
     snd (serve reqs (snd (app req t)))).
Proof.
  simpl. destruct (app req t) as [res t1]. simpl.
  destruct (serve reqs t1) as [ress t2]. reflexivity.
Qed.

(** The keys reported over a run of requests are pairwise distinct and
    lie between the counter before and the counter after. *)
Lemma serve_created (reqs : list request) (t : Db.table) :
  Db.consistent t ->
  Db.consistent (snd (serve reqs t))
  /\ Db.auto_increment t <= Db.auto_increment (snd (serve reqs t))
  /\ NoDup (created (fst (serve reqs t)))
  /\ (forall k, k ∈ created (fst (serve reqs t)) ->
                Db.auto_increment t <= k
                < Db.auto_increment (snd (serve reqs t))).
Proof.
  revert t. induction reqs as [|req reqs IH]; intros t Hc.
  - simpl. split; [exact Hc|]. split; [lia|]. split; [constructor|].
    intros k Hk. inversion Hk.
  - rewrite serve_cons. simpl.
    destruct (app_step req t Hc) as (Hc1 & Hle1 & Hkey).
    destruct (IH _ Hc1) as (Hc2 & Hle2 & Hnd & Hin).
    split; [exact Hc2|]. split; [lia|].
    unfold created. simpl. fold (created (fst (serve reqs (snd (app req t))))).
    destruct (created_key (fst (app req t))) as [k|] eqn:Hk.
    + destruct (Hkey k eq_refl) as (-> & _ & Hnext).
      split.
      * constructor; [|exact Hnd]. intros Hmem. apply Hin in Hmem. lia.
      * intros k' Hk'. apply elem_of_cons in Hk' as [->|Hk'];
          [lia|apply Hin in Hk'; lia].
    + split; [exact Hnd|]. intros k' Hk'. apply Hin in Hk'. lia.
Qed.

End ServerFacts.

(** C5, as the specification states it, fails in two ways. An id that the
    database rejects as a key, such as [abc] in strict mode, is answered
    500, neither 204 nor 404. And for the empty id the path is
    [/expenses/], which is the path of [DELETE /expenses]: the request is
    answered 204 and every row is deleted. *)
Lemma delete_absent_id_counterexample :
  ~ (forall (engine : Db.engine) (id : string) (t : Db.table),
        (forall k, Db.key_of engine id = inr k -> Db.rows t !! k = None) ->
        let res :=
          fst (app engine IsoDate.of_json IsoDate.toISOString
                 (mkRequest DELETE ["expenses"; id] []) t) in
        status res = 204 \/ status res = 404)
  /\ ~ (forall (engine : Db.engine) (id : string) (t : Db.table),
          (forall k, Db.key_of engine id = inr k -> Db.rows t !! k = None) ->
          let t' :=
            snd (app engine IsoDate.of_json IsoDate.toISOString
                   (mkRequest DELETE ["expenses"; id] []) t) in
          length (Db.select_all t') = length (Db.select_all t)).
Proof.
  split.
  - intros H.
    destruct (H Strict.engine "abc" Db.empty) as [H1|H1];
      [intros k Hk; discriminate Hk|discriminate H1|discriminate H1].
  - intros H.
    specialize (H Strict.engine ""
                  (Db.mkTable {[ 1 := Db.mkRow "300.00" "Food" None
                                        "2024-01-01 00:00:00" ]} 2)).
    assert (Hlen : (0 = 1)%nat); [|discriminate Hlen].
    apply H. intros k Hk. discriminate Hk.
Qed.

(** C5 at an engine and a table: the id 7 is deleted from a table whose
    one row has the key 1. *)
Lemma delete_absent_id_is_noop_witness :
  let t := Db.mkTable {[ 1 := Db.mkRow "300.00" "Food" None
                                "2024-01-01 00:00:00" ]} 2 in
  let '(res, t') :=
    app Strict.engine IsoDate.of_json IsoDate.toISOString
      (mkRequest DELETE ["expenses"; "7"] []) t in
  (res = mkResponse 204 NoContent
   <-> exists k, Db.key_of Strict.engine "7" = inr k)
  /\ (status res = 500
      <-> exists err, Db.key_of Strict.engine "7" = inl err)
  /\ (status res = 204 \/ status res = 500)
  /\ t' = t
  /\ fst (app Strict.engine IsoDate.of_json IsoDate.toISOString
            (mkRequest GET ["expenses"] []) t')
     = fst (app Strict.engine IsoDate.of_json IsoDate.toISOString
              (mkRequest GET ["expenses"] []) t)
  /\ length (Db.select_all t') = length (Db.select_all t)
  /\ (forall k' r, Db.rows t !! k' = Some r -> Db.rows t' !! k' = Some r).
Proof.
  apply (delete_absent_id_is_noop Strict.engine IsoDate.of_json
           IsoDate.toISOString "7").
  - discriminate.
  - intros k Hk. injection Hk as <-. reflexivity.
Defined.

(** C2. The server has no route for [PUT /expenses/:id]: whatever the id,
    the fields and the table, the update call is answered 404 and rejected,
    the table is left as it was, and the edit workflow never reports a
    success nor changes the list it shows. *)
Theorem updateExpense_is_not_found :
  forall (engine : Db.engine) (Date_of : json -> option Z)
         (Date_toISOString : Z -> string)
         (id : string) (u : update) (t : Db.table)
         (e : edit) (expenses : list Expense.t),
    updateExpense engine Date_of Date_toISOString id u t
    = (inl (mkResponse 404 (Message "Not Found")), t)
    /\ notice (saveEditedExpense engine Date_of Date_toISOString e expenses t)
       <> Some (Alert "Success" "Expense updated successfully!")
    /\ shown (saveEditedExpense engine Date_of Date_toISOString e expenses t)
       = expenses
    /\ stored (saveEditedExpense engine Date_of Date_toISOString e expenses t)
       = t.
Proof.
  intros. split; [reflexivity|].
  unfold saveEditedExpense.
  destruct (editingExpense e) as [editing|]; [|now repeat split].
  destruct (Num.isNaN _ || _); [now repeat split|].
  destruct (String.eqb _ _); [now repeat split|].
  now repeat split.
Qed.

(** The edit of an existing expense with valid fields, run against a table
    that holds it: the call fails and the row keeps its amount. *)
Example saveEditedExpense_fails :
  let t := Db.mkTable {[ 1 := Db.mkRow "300.00" "Food" None
                                "2024-01-01 00:00:00" ]} 2 in
  let shown_ := [Expense.mk "1" (parseFloat "300") "Food" ""
                   "2024-01-01T00:00:00.000Z"] in
  let e := mkEdit (Some (Expense.mk "1" (parseFloat "300") "Food" ""
                           "2024-01-01T00:00:00.000Z"))
             "250" "Food" "lunch" in
  saveEditedExpense Strict.engine IsoDate.of_json IsoDate.toISOString
    e shown_ t
  = mkSaved shown_ (Some (Alert "Error" "Failed to update expense")) t.
Proof. reflexivity. Qed.

(** C3 at the request the server should reject: an amount of -5 with a
    category and a date is answered 201 and the row is stored. *)
Theorem post_expenses_stores_negative_amount :
  app Strict.engine IsoDate.of_json IsoDate.toISOString
    (mkRequest POST ["expenses"]
       [("amount", JNum (parseFloat "-5")); ("category", JStr "Food");
        ("note", JStr ""); ("date", JStr "2024-01-01T00:00:00.000Z")])
    Db.empty
  = (mkResponse 201 (InsertId 1),
     Db.mkTable {[ 1 := Db.mkRow "-5.00" "Food" (Some "")
                           "2024-01-01 00:00:00" ]} 2).
Proof. vm_compute. reflexivity. Qed.

(* ===================================================================== *)
(** ** Adding an expense on the device *)
(* ===================================================================== *)

(** What is written and read back keeps the ids, the length and the
    order of the list; an amount that is finite and not zero is read back
    as it is. *)
Lemma JSON_expenses_ids (expenses : list Expense.t) :
  map Expense.id (JSON_expenses expenses) = map Expense.id expenses.
Proof.
  unfold JSON_expenses. induction expenses as [|e l IH]; [reflexivity|].
  simpl. now f_equal.
Qed.

Lemma JSON_expenses_length (expenses : list Expense.t) :
  length (JSON_expenses expenses) = length expenses.
Proof. unfold JSON_expenses. apply length_map. Qed.

Lemma JSON_expenses_app (l l' : list Expense.t) :
  JSON_expenses (l ++ l') = (JSON_expenses l ++ JSON_expenses l')%list.
Proof. unfold JSON_expenses. apply map_app. Qed.

Lemma JSON_amount_idem (x : number) :
  JSON_amount (JSON_amount x) = JSON_amount x.
Proof. now destruct x. Qed.

Lemma JSON_expenses_idem (expenses : list Expense.t) :
  JSON_expenses (JSON_expenses expenses) = JSON_expenses expenses.
Proof.
  unfold JSON_expenses. rewrite map_map. apply map_ext.
  intros e. simpl. now rewrite JSON_amount_idem.
Qed.

Lemma JSON_amount_positive (x : number) :
  Num.isFinite x = true -> (x >? Num.zero)%num = true -> JSON_amount x = x.
Proof. destruct x as [s|s| |s m e]; try reflexivity; discriminate. Qed.

Section AddExpenseFacts.

Variable Date_toISOString : Z -> string.

Local Abbreviation handleAddExpense :=
  (AddExpense.handleAddExpense Date_toISOString).
Local Abbreviation add_all := (AddExpense.add_all Date_toISOString).

(** An amount that is not a number or not positive, or an empty
    category, leaves the store as it was. *)
Lemma handleAddExpense_rejects (c : AddExpense.clock) (f : AddExpense.form)
    (st : AsyncStorage) :
  Num.isNaN (parseFloat (AddExpense.amount f)) = true
  \/ (parseFloat (AddExpense.amount f) <=? Num.zero)%num = true
  \/ AddExpense.selectedCategory f = "" ->
  storage (handleAddExpense c f st) = st
  /\ exists title message,
      raised (handleAddExpense c f st) = Some (Alert title message)
      /\ title <> "Expense Added!".
Proof.
  intros H. unfold AddExpense.handleAddExpense.
  destruct (Num.isNaN _ || _) eqn:Hbad.
  - split; [reflexivity|]. eexists _, _. split; [reflexivity|discriminate].
  - destruct H as [H | [H | H]].
    + rewrite H in Hbad. discriminate Hbad.
    + rewrite H, orb_true_r in Hbad. discriminate Hbad.
    + rewrite H. simpl. split; [reflexivity|].
      eexists _, _. split; [reflexivity|discriminate].
Qed.

(** The ids in the store after the handler ran: those before, followed
    by the clock reading when the expense was added. *)
Lemma handleAddExpense_ids (c : AddExpense.clock) (f : AddExpense.form)
    (st : AsyncStorage) :
  AddExpense.stored_ids (storage (handleAddExpense c f st))
  = AddExpense.stored_ids st
  \/ AddExpense.stored_ids (storage (handleAddExpense c f st))
     = (AddExpense.stored_ids st ++ [pretty (AddExpense.now c)])%list.
Proof.
  unfold AddExpense.handleAddExpense.
  destruct (Num.isNaN _ || _); [now left|].
  destruct (String.eqb _ _); [now left|].
  unfold AddExpense.stored_expenses, AddExpense.stored_ids, getItem, setItem.
  destruct (st !! "expenses") as [[s|expenses]|] eqn:Hst; simpl.
  - destruct (String.eqb s ""); simpl.
    + right. rewrite lookup_insert_eq. reflexivity.
    + left. now rewrite Hst.
  - right. rewrite lookup_insert_eq, JSON_expenses_ids. now rewrite map_app.
  - right. rewrite lookup_insert_eq. reflexivity.
Qed.

(** Over a run of the handler the ids stay pairwise distinct when the
    clock readings are pairwise distinct and none of them is an id
    already stored. *)
Lemma add_all_ids (inputs : list (AddExpense.clock * AddExpense.form))
    (st : AsyncStorage) :
  NoDup (AddExpense.stored_ids st) ->
  NoDup (map (fun i => AddExpense.now (fst i)) inputs) ->
  (forall i, i ∈ inputs ->
             pretty (AddExpense.now (fst i)) ∉ AddExpense.stored_ids st) ->
  NoDup (AddExpense.stored_ids (add_all inputs st)).
Proof.
  revert st. induction inputs as [|[c f] inputs IH]; intros st Hst Hnow Hnew.
  - exact Hst.
  - simpl. apply NoDup_cons in Hnow as [Hc Hnow].
    assert (Hfresh : pretty (AddExpense.now c) ∉ AddExpense.stored_ids st)
      by (apply (Hnew (c, f)); left).
    destruct (handleAddExpense_ids c f st) as [Hids | Hids].
    + apply IH; [now rewrite Hids|exact Hnow|].
      intros i Hi. rewrite Hids. apply Hnew. now right.
    + apply IH; [|exact Hnow|].
      * rewrite Hids. apply NoDup_app. split; [exact Hst|].
        split; [|apply NoDup_singleton].
        intros x Hx Hx'. apply list_elem_of_singleton in Hx'. now subst.
      * intros i Hi. rewrite Hids. rewrite elem_of_app.
        intros [Hold | Hsame].
        -- revert Hold. apply Hnew. now right.
        -- apply list_elem_of_singleton in Hsame.
           apply (inj pretty) in Hsame.
           apply Hc. simpl. rewrite <- Hsame.
           apply (list_elem_of_fmap_2 (fun i => AddExpense.now (fst i))).
           exact Hi.
Qed.

End AddExpenseFacts.

(** The text [Infinity] is an amount that is neither [NaN] nor at most 0:
    the expense is added. *)
Example handleAddExpense_accepts_Infinity :
  raised (AddExpense.handleAddExpense IsoDate.toISOString
            (AddExpense.mkClock 1700000000000 1700000000000)
            (AddExpense.mkForm "Infinity" "Food" "") ∅)
  = Some (Alert "Expense Added!"
            "₱Infinity has been added to your expenses.").
Proof. reflexivity. Qed.

(** C9, as the specification states it, fails on the device: two expenses
    added while the clock reads the same millisecond get the same id. *)
Lemma create_ids_counterexample :
  ~ (forall (inputs : list (AddExpense.clock * AddExpense.form)),
        NoDup (AddExpense.stored_ids
                 (AddExpense.add_all IsoDate.toISOString inputs ∅))).
Proof.
  intros H.
  specialize (H [(AddExpense.mkClock 1700000000000 1700000000000,
                  AddExpense.mkForm "300" "Food" "lunch");
                 (AddExpense.mkClock 1700000000000 1700000000000,
                  AddExpense.mkForm "25.50" "Coffee" "")]).
  vm_compute in H. apply NoDup_cons in H as [H _]. apply H. left.
Qed.

(** C9, amended. On the server the keys reported for created rows are
    pairwise distinct over any run of requests, and none is the key of a
    row the table had before. On the device the ids stay pairwise distinct
    over a run of additions whose clock readings are pairwise distinct and
    are not ids already stored. *)
Theorem create_ids_distinct :
  (forall (engine : Db.engine) (Date_of : json -> option Z)
          (Date_toISOString : Z -> string)
          (reqs : list request) (t : Db.table),
      Db.consistent t ->
      NoDup (created (fst (serve engine Date_of Date_toISOString reqs t)))
      /\ (forall k,
             k ∈ created (fst (serve engine Date_of Date_toISOString reqs t)) ->
             Db.rows t !! k = None))
  /\ (forall (Date_toISOString : Z -> string)
             (inputs : list (AddExpense.clock * AddExpense.form))
             (st : AsyncStorage),
         NoDup (AddExpense.stored_ids st) ->
         NoDup (map (fun i => AddExpense.now (fst i)) inputs) ->
         (forall i, i ∈ inputs ->
                    pretty (AddExpense.now (fst i))
                    ∉ AddExpense.stored_ids st) ->
         NoDup (AddExpense.stored_ids
                  (AddExpense.add_all Date_toISOString inputs st))).
Proof.
  split.
  - intros engine Date_of Date_toISOString reqs t Hc.
    destruct (serve_created engine Date_of Date_toISOString reqs t Hc)
      as (_ & _ & Hnd & Hin).
    split; [exact Hnd|].
    intros k Hk. apply Hin in Hk.
    destruct (Db.rows t !! k) as [r|] eqn:Hr; [|reflexivity].
    apply Hc in Hr. lia.
  - intros. now apply add_all_ids.
Qed.

Lemma create_ids_distinct_witness :
  NoDup (created
           (fst (serve Strict.engine IsoDate.of_json IsoDate.toISOString
                   [mkRequest POST ["expenses"]
                      [("amount", JNum (parseFloat "300"));
                       ("category", JStr "Food");
                       ("date", JStr "2024-01-01T00:00:00.000Z")];
                    mkRequest DELETE ["expenses"; "1"] [];
                    mkRequest POST ["expenses"]
                      [("amount", JNum (parseFloat "25.5"));
                       ("category", JStr "Coffee");
                       ("date", JStr "2024-01-01T00:00:00.000Z")]]
                   Db.empty)))
  /\ NoDup (AddExpense.stored_ids
              (AddExpense.add_all IsoDate.toISOString
                 [(AddExpense.mkClock 1700000000000 1700000000000,
                   AddExpense.mkForm "300" "Food" "lunch");
                  (AddExpense.mkClock 1700000000001 1700000000001,
                   AddExpense.mkForm "25.50" "Coffee" "")]
                 ∅)).
Proof.
  split.
  - apply (proj1 create_ids_distinct).
    intros k r Hk. vm_compute in Hk. discriminate Hk.
  - apply (proj2 create_ids_distinct).
    + vm_compute. constructor.
    + vm_compute. repeat constructor; intros Hin;
        repeat (apply elem_of_cons in Hin as [Hin|Hin]; [discriminate Hin|]);
        inversion Hin.
    + intros i _ Hin. vm_compute in Hin. inversion Hin.
Defined.

(* ===================================================================== *)
(** ** Recent expenses *)
(* ===================================================================== *)

Section RecentFacts.

Variable Date_parse : string -> option Z.

Local Abbreviation time_of := (time_of Date_parse).
Local Abbreviation valid_date := (valid_date Date_parse).
Local Abbreviation placed_before := (placed_before Date_parse).
Local Abbreviation by_date_desc := (by_date_desc Date_parse).
Local Abbreviation render_expenses := (render_expenses Date_parse).
Local Abbreviation recentExpenses := (recentExpenses Date_parse).

Lemma SortCompare_valid (a b : Expense.t) :
  valid_date a -> valid_date b ->
  SortCompare by_date_desc a b = time_of b - time_of a.
Proof.
  unfold valid_date, SortCompare, by_date_desc,
    time_of.
  intros [ta ->] [tb ->]. reflexivity.
Qed.

Lemma placed_before_trans (p q r : nat * Expense.t) :
  placed_before p q -> placed_before q r -> placed_before p r.
Proof. unfold placed_before. lia. Qed.

Lemma placed_before_irrefl (p : nat * Expense.t) : ~ placed_before p p.
Proof. unfold placed_before. lia. Qed.

(** Inserting an element whose tag is below those of a sorted list. *)
Lemma sort_insert_tagged (p : nat * Expense.t)
    (arranged : list (nat * Expense.t)) :
  valid_date (snd p) ->
  Forall (fun q => valid_date (snd q)) arranged ->
  Forall (tag_lt p) arranged ->
  StronglySorted placed_before arranged ->
  exists arranged',
    Permutation arranged' (p :: arranged)
    /\ StronglySorted placed_before arranged'
    /\ sort_insert by_date_desc (snd p) (map snd arranged)
       = map snd arranged'.
Proof.
  intros Hp. induction arranged as [|q rest IH]; intros Hvalid Htags Hsorted.
  - exists [p]. repeat split; auto. repeat constructor.
  - apply Forall_cons in Hvalid as [Hq Hvalid].
    apply Forall_cons in Htags as [Hpq Htags].
    apply StronglySorted_inv in Hsorted as [Hsorted Hqrest].
    simpl. rewrite (SortCompare_valid _ _ Hp Hq).
    destruct (0 <? time_of (snd q) - time_of (snd p))%Z eqn:Hcmp.
    + apply Z.ltb_lt in Hcmp.
      destruct (IH Hvalid Htags Hsorted) as (arr & Hperm & Hs & Heq).
      exists (q :: arr). split; [|split].
      * rewrite Hperm. apply perm_swap.
      * constructor; [exact Hs|].
        rewrite Hperm. constructor; [|exact Hqrest].
        left. lia.
      * simpl. now rewrite Heq.
    + apply Z.ltb_ge in Hcmp.
      exists (p :: q :: rest). split; [reflexivity|]. split; [|reflexivity].
      constructor; [now constructor|].
      assert (Hfirst : placed_before p q).
      { unfold placed_before, tag_lt in *. lia. }
      constructor; [exact Hfirst|].
      rewrite Forall_forall in Hqrest, Htags |- *.
      intros r Hr. specialize (Hqrest r Hr). specialize (Htags r Hr).
      unfold placed_before, tag_lt in *. lia.
Qed.

(** Sorting a list whose tags increase arranges it by [placed_before]. *)
Lemma Array_sort_tagged (items : list (nat * Expense.t)) :
  Forall (fun q => valid_date (snd q)) items ->
  StronglySorted tag_lt items ->
  exists arranged,
    Permutation arranged items
    /\ StronglySorted placed_before arranged
    /\ Array_sort by_date_desc (map snd items) = map snd arranged.
Proof.
  induction items as [|p items IH]; intros Hvalid Htags.
  - exists []. repeat split; auto. constructor.
  - apply Forall_cons in Hvalid as [Hp Hvalid].
    apply StronglySorted_inv in Htags as [Htags Hpitems].
    destruct (IH Hvalid Htags) as (arr & Hperm & Hs & Heq).
    destruct (sort_insert_tagged p arr Hp) as (arr' & Hperm' & Hs' & Heq').
    + now rewrite Hperm.
    + now rewrite Hperm.
    + exact Hs.
    + exists arr'. split; [|split].
      * rewrite Hperm'. now constructor.
      * exact Hs'.
      * simpl. now rewrite Heq, Heq'.
Qed.

Lemma tagged_from (expenses : list Expense.t) (n : nat) :
  let items := imap (fun i e => ((n + i)%nat, e)) expenses in
  map snd items = expenses
  /\ Forall (fun q => (n <= fst q)%nat) items
  /\ StronglySorted tag_lt items.
Proof.
  revert n. induction expenses as [|e expenses IH]; intros n.
  - simpl. repeat split; constructor.
  - simpl.
    assert (Hext : imap ((fun i e0 => ((n + i)%nat, e0)) ∘ S) expenses
                   = imap (fun i e0 => ((S n + i)%nat, e0)) expenses).
    { apply imap_ext. intros i x _. simpl. f_equal. lia. }
    rewrite Hext. destruct (IH (S n)) as (Hmap & Hge & Hs).
    split; [now rewrite Hmap|]. split.
    + constructor; [simpl; lia|].
      eapply Forall_impl; [exact Hge|]. simpl. lia.
    + constructor; [exact Hs|].
      eapply Forall_impl; [exact Hge|]. unfold tag_lt. simpl. lia.
Qed.

Lemma tagged_spec (expenses : list Expense.t) :
  map snd (tagged expenses) = expenses
  /\ StronglySorted tag_lt (tagged expenses).
Proof.
  destruct (tagged_from expenses 0) as (Hmap & _ & Hs). split; assumption.
Qed.

Lemma render_expenses_stable (expenses : list Expense.t) :
  Forall valid_date expenses ->
  stably_sorted_by_date_desc Date_parse expenses (render_expenses expenses).
Proof.
  intros Hvalid. destruct (tagged_spec expenses) as [Hmap Htags].
  destruct (Array_sort_tagged (tagged expenses)) as (arr & Hperm & Hs & Heq).
  - apply (proj1 (List.Forall_map _ _ _)). now rewrite Hmap.
  - exact Htags.
  - exists arr. split; [exact Hperm|]. split; [exact Hs|].
    unfold render_expenses. rewrite <- Heq. now rewrite Hmap.
Qed.

(** A list already in descending order of date is left as it is. *)
Lemma Array_sort_sorted (expenses : list Expense.t) :
  Forall valid_date expenses ->
  StronglySorted (fun a b => time_of b <= time_of a) expenses ->
  Array_sort by_date_desc expenses = expenses.
Proof.
  induction expenses as [|a expenses IH]; intros Hvalid Hsorted.
  - reflexivity.
  - apply Forall_cons in Hvalid as [Ha Hvalid].
    apply StronglySorted_inv in Hsorted as [Hsorted Hhead].
    simpl. rewrite (IH Hvalid Hsorted).
    destruct expenses as [|b rest]; [reflexivity|].
    apply Forall_cons in Hvalid as [Hb _].
    apply Forall_cons in Hhead as [Hab _].
    simpl. rewrite (SortCompare_valid _ _ Ha Hb).
    destruct (0 <? time_of b - time_of a)%Z eqn:Hcmp; [|reflexivity].
    apply Z.ltb_lt in Hcmp. lia.
Qed.

Lemma stably_sorted_descending (expenses view : list Expense.t) :
  stably_sorted_by_date_desc Date_parse expenses view ->
  Permutation view expenses
  /\ StronglySorted (fun a b => time_of b <= time_of a) view.
Proof.
  intros (arr & Hperm & Hs & ->). split.
  - rewrite Hperm. now rewrite (proj1 (tagged_spec expenses)).
  - clear Hperm. induction Hs as [|p arr Hs IH Hhead]; [constructor|].
    simpl. constructor; [exact IH|].
    apply (proj2 (List.Forall_map _ _ _)). eapply Forall_impl; [exact Hhead|].
    intros q. unfold placed_before. simpl. lia.
Qed.

(** Two arrangements of the same elements by a strict order are the
    same list. *)
Lemma sorted_unique (l l' : list (nat * Expense.t)) :
  StronglySorted placed_before l -> StronglySorted placed_before l' ->
  Permutation l l' -> l = l'.
Proof.
  revert l'. induction l as [|p l IH]; intros l' Hs Hs' Hperm.
  - now apply Permutation_nil in Hperm.
  - destruct l' as [|p' l'].
    { symmetry in Hperm. now apply Permutation_nil_cons in Hperm. }
    apply StronglySorted_inv in Hs as [Hs Hp].
    apply StronglySorted_inv in Hs' as [Hs' Hp'].
    assert (Heq : p = p').
    { assert (Hin : p ∈ p' :: l') by (rewrite <- Hperm; left).
      assert (Hin' : p' ∈ p :: l) by (rewrite Hperm; left).
      apply elem_of_cons in Hin as [Hin|Hin]; [exact Hin|].
      apply elem_of_cons in Hin' as [Hin'|Hin']; [now symmetry|].
      rewrite Forall_forall in Hp, Hp'.
      specialize (Hp _ Hin'). specialize (Hp' _ Hin).
      exfalso. apply (placed_before_irrefl p).
      now apply (placed_before_trans p p' p). }
    subst p'. f_equal. apply IH; [exact Hs|exact Hs'|].
    now apply Permutation_cons_inv in Hperm.
Qed.

(** The arrangement of the specification is one view and no other. *)
Lemma stably_sorted_unique (expenses view view' : list Expense.t) :
  stably_sorted_by_date_desc Date_parse expenses view ->
  stably_sorted_by_date_desc Date_parse expenses view' ->
  view = view'.
Proof.
  intros (arr & Hperm & Hs & ->) (arr' & Hperm' & Hs' & ->).
  f_equal. apply sorted_unique; [exact Hs|exact Hs'|].
  now rewrite Hperm, Hperm'.
Qed.

(** C7. For expenses whose dates are valid, the array after the in-place
    sort is the list arranged in descending order of date, expenses of
    the same date in the order of the list; the view is its first five
    elements; and a render that starts from the sorted array gives the
    same view again. *)
Theorem recentExpenses_stable (expenses : list Expense.t) :
  Forall valid_date expenses ->
  stably_sorted_by_date_desc Date_parse expenses (render_expenses expenses)
  /\ recentExpenses expenses = take 5 (render_expenses expenses)
  /\ recentExpenses (render_expenses expenses) = recentExpenses expenses.
Proof.
  intros Hvalid.
  pose proof (render_expenses_stable expenses Hvalid) as Hstable.
  split; [exact Hstable|]. split; [reflexivity|].
  destruct (stably_sorted_descending _ _ Hstable) as [Hperm Hdesc].
  unfold recentExpenses. f_equal.
  apply Array_sort_sorted; [|exact Hdesc].
  now rewrite Hperm.
Qed.

End RecentFacts.

(** C7 at three expenses, the first and the last of the same date. *)
Lemma recentExpenses_stable_witness :
  let a := Expense.mk "1" (parseFloat "300") "Food" ""
             "2024-01-01T08:00:00.000Z" in
  let b := Expense.mk "2" (parseFloat "25.5") "Coffee" ""
             "2024-01-02T08:00:00.000Z" in
  let c := Expense.mk "3" (parseFloat "120") "Transportation" ""
             "2024-01-01T08:00:00.000Z" in
  recentExpenses IsoDate.parse [a; b; c] = [b; a; c]
  /\ stably_sorted_by_date_desc IsoDate.parse [a; b; c]
       (render_expenses IsoDate.parse [a; b; c])
  /\ recentExpenses IsoDate.parse [a; b; c]
     = take 5 (render_expenses IsoDate.parse [a; b; c])
  /\ recentExpenses IsoDate.parse (render_expenses IsoDate.parse [a; b; c])
     = recentExpenses IsoDate.parse [a; b; c].
Proof.
  split; [reflexivity|].
  apply recentExpenses_stable.
  repeat constructor; eexists; vm_compute; reflexivity.
Defined.

(* ===================================================================== *)
(** ** More of the home screen *)
(* ===================================================================== *)

Lemma lt_asym (x y : number) :
  (x <? y)%num = true -> (y <? x)%num = false.
Proof.
  intros Hlt. pose proof (lt_not_le _ _ Hlt) as Hle.
  unfold Num.lt, Num.le, SFltb, SFleb in *.
  destruct (SFcompare y x) as [[ | | ]|]; try reflexivity; discriminate Hle.
Qed.

(** X1. With a positive budget and no expenses the total and the
    percentage are 0, the remainder is the budget, the status is good, no
    alert is shown and the progress bar is empty. *)
Theorem no_expenses_on_track (budget : number) :
  (budget >? Num.zero)%num = true ->
  Home.totalSpent [] = Num.zero
  /\ Home.remaining budget [] = budget
  /\ Home.percentageUsed budget [] = Num.zero
  /\ Home.getBudgetStatus budget [] = good
  /\ alert_shown budget [] = false
  /\ progress_width budget [] = Num.zero.
Proof.
  intros Hpos.
  destruct budget as [s|s| |s m e]; try destruct s; try discriminate Hpos;
    vm_compute; repeat split.
Qed.

Lemma no_expenses_on_track_witness :
  Home.totalSpent [] = Num.zero
  /\ Home.remaining (parseFloat "1000") [] = parseFloat "1000"
  /\ Home.percentageUsed (parseFloat "1000") [] = Num.zero
  /\ Home.getBudgetStatus (parseFloat "1000") [] = good
  /\ alert_shown (parseFloat "1000") [] = false
  /\ progress_width (parseFloat "1000") [] = Num.zero.
Proof.
  apply (no_expenses_on_track (parseFloat "1000")). reflexivity.
Defined.

Lemma lt_irrefl (x : number) : (x <? x)%num = false.
Proof.
  destruct (x <? x)%num eqn:H; [|reflexivity].
  pose proof (lt_asym _ _ H) as H'. congruence.
Qed.

Lemma Math_min_bound (x y : number) : (Math_min x y >? y)%num = false.
Proof.
  unfold Math_min, Num.gt.
  destruct (Num.isNaN x || Num.isNaN y).
  - now destruct y.
  - destruct (x <? y)%num eqn:Hxy; [now apply lt_asym|].
    destruct (y <? x)%num eqn:Hyx; [apply lt_irrefl|].
    destruct x as [[|]|s| |s m e]; try apply lt_irrefl. exact Hyx.
Qed.

(** X2. The progress bar is never wider than 100 percent, whatever the
    budget and the expenses, and its width is a number whenever the
    percentage is one. *)
Theorem progress_width_at_most_100 (budget : number)
    (expenses : list Expense.t) :
  (progress_width budget expenses >? Num.of_Z 100)%num = false
  /\ Num.isNaN (progress_width budget expenses)
     = Num.isNaN (Home.percentageUsed budget expenses).
Proof.
  split; [apply Math_min_bound|].
  unfold progress_width, Math_min.
  destruct (Home.percentageUsed budget expenses) as [[|]|[|]| |[|] m e];
    try reflexivity;
    change (Num.isNaN (S754_finite _ m e) || Num.isNaN (Num.of_Z 100))
      with false; cbv iota;
    repeat match goal with
      | |- context [if ?c then _ else _] => destruct c
      end; reflexivity.
Qed.

(** X3. When the status is exceeded the alert is shown and no allowance
    is suggested; an allowance is suggested only when the remainder is
    positive. *)
Theorem exceeded_hides_suggestion (budgetType : option string)
    (budget : number) (expenses : list Expense.t) :
  Home.getBudgetStatus budget expenses = exceeded ->
  suggested_limit budgetType budget expenses = None
  /\ alert_shown budget expenses = true
  /\ (Home.remaining budget expenses <? Num.zero)%num = true.
Proof.
  intros Hstatus. unfold alert_shown. rewrite Hstatus.
  assert (Hneg : (Home.remaining budget expenses <? Num.zero)%num = true).
  { unfold Home.getBudgetStatus in Hstatus.
    destruct (Home.remaining budget expenses <? Num.zero)%num; [reflexivity|].
    repeat match type of Hstatus with
      | (if ?c then _ else _) = _ => destruct c
      end; discriminate Hstatus. }
  split; [|split; [reflexivity|exact Hneg]].
  unfold suggested_limit.
  change (Home.remaining budget expenses >? Num.zero)%num
    with (Num.zero <? Home.remaining budget expenses)%num.
  now rewrite (lt_asym _ _ Hneg).
Qed.

Lemma exceeded_hides_suggestion_witness :
  let budget := parseFloat "500" in
  let expenses := [spend "1" "300"; spend "2" "300"] in
  Home.getBudgetStatus budget expenses = exceeded
  /\ suggested_limit (Some "weekly") budget expenses = None
  /\ alert_shown budget expenses = true
  /\ (Home.remaining budget expenses <? Num.zero)%num = true.
Proof.
  split; [reflexivity|].
  apply exceeded_hides_suggestion. reflexivity.
Defined.

(* ===================================================================== *)
(** ** More of the HTTP API *)
(* ===================================================================== *)

Section ServerMore.

Variable engine : Db.engine.
Variable Date_of : json -> option Z.
Variable Date_toISOString : Z -> string.

Local Abbreviation app := (app engine Date_of Date_toISOString).
Local Abbreviation post_expenses :=
  (post_expenses engine Date_of Date_toISOString).
Local Abbreviation serve := (serve engine Date_of Date_toISOString).

Lemma app_post (b : body) (t : Db.table) :
  app (mkRequest POST ["expenses"] b) t = post_expenses b t.
Proof. reflexivity. Qed.

Lemma app_get (b : body) (t : Db.table) :
  app (mkRequest GET ["expenses"] b) t = get_expenses t.
Proof. reflexivity. Qed.

(** The three ways a create ends: refused, failed, or stored under the
    key the counter held. *)
Lemma post_expenses_outcome (b : body) (t : Db.table) :
  (status (fst (post_expenses b t)) = 400 /\ snd (post_expenses b t) = t)
  \/ (status (fst (post_expenses b t)) = 500 /\ snd (post_expenses b t) = t)
  \/ (exists amount category date time r,
         field "amount" b = Some amount
         /\ field "category" b = Some category
         /\ field "date" b = Some date
         /\ Date_of date = Some time
         /\ Db.converted engine amount category (field "note" b)
              (replace_first "T" " "
                 (String.substring 0 19 (Date_toISOString time))) = inr r
         /\ Db.rows t !! Db.auto_increment t = None
         /\ post_expenses b t
            = (mkResponse 201 (InsertId (Db.auto_increment t)),
               Db.mkTable (<[Db.auto_increment t := r]> (Db.rows t))
                 (Db.auto_increment t + 1))).
Proof.
  unfold post_expenses.
  destruct (negb (truthy (field "amount" b)) || _ || _); [now left|].
  destruct (field "amount" b) as [amount|]; [|now left].
  destruct (field "category" b) as [category|]; [|now left].
  destruct (field "date" b) as [date|]; [|now left].
  destruct (Date_of date) as [time|] eqn:Htime; [|now right; left].
  destruct (Db.converted _ _ _ _ _) as [err|r] eqn:Hrow; [now right; left|].
  unfold Db.insert.
  destruct (Db.rows t !! Db.auto_increment t) eqn:Hkey; [now right; left|].
  right; right. exists amount, category, date, time, r. now repeat split.
Qed.

(** X4. A create that is answered 201 reports the key the counter held,
    which no row had. The row stored is the one the engine makes of the
    amount, the category and the note of the body and of the date of the
    body, read as a date and written as [YYYY-MM-DD HH:mm:ss]; the table
    gains that row under that key, keeps every other row, and its counter
    is one more. The list of a following [GET /expenses] is one longer and
    holds the new expense, under that key and with the fields of that
    row. *)
Theorem create_then_list (b : body) (t : Db.table) :
  status (fst (app (mkRequest POST ["expenses"] b) t)) = 201 ->
  let t' := snd (app (mkRequest POST ["expenses"] b) t) in
  let k := Db.auto_increment t in
  exists amount category date time r,
    field "amount" b = Some amount
    /\ field "category" b = Some category
    /\ field "date" b = Some date
    /\ Date_of date = Some time
    /\ Db.converted engine amount category (field "note" b)
         (replace_first "T" " "
            (String.substring 0 19 (Date_toISOString time))) = inr r
    /\ sent (fst (app (mkRequest POST ["expenses"] b) t)) = InsertId k
    /\ Db.rows t !! k = None
    /\ Db.rows t' !! k = Some r
    /\ (forall k', k' <> k -> Db.rows t' !! k' = Db.rows t !! k')
    /\ Db.auto_increment t' = k + 1
    /\ length (Db.select_all t') = S (length (Db.select_all t))
    /\ exists listed_,
        fst (app (mkRequest GET ["expenses"] []) t')
        = mkResponse 200 (Expenses listed_)
        /\ length listed_ = S (length (Db.select_all t))
        /\ mkFetched k (parseFloat (Db.amount r)) (Db.category r) (Db.note r)
             (Db.date r) ∈ listed_.
Proof.
  rewrite app_post. intros Hstatus.
  destruct (post_expenses_outcome b t) as [[H _]|[[H _]|H]];
    [rewrite H in Hstatus; discriminate Hstatus
    |rewrite H in Hstatus; discriminate Hstatus|].
  destruct H as (amount & category & date & time & r
                 & Ha & Hcat & Hd & Htime & Hrow & Hnone & ->).
  exists amount, category, date, time, r.
  cbn [fst snd sent Db.rows Db.auto_increment].
  assert (Hlen : length (Db.select_all
                           (Db.mkTable
                              (<[Db.auto_increment t := r]> (Db.rows t))
                              (Db.auto_increment t + 1)))
                 = S (length (Db.select_all t))).
  { unfold Db.select_all. cbn [Db.rows].
    rewrite !length_map_to_list. now apply map_size_insert_None. }
  split; [exact Ha|]. split; [exact Hcat|]. split; [exact Hd|].
  split; [exact Htime|]. split; [exact Hrow|].
  split; [reflexivity|]. split; [exact Hnone|].
  split; [apply lookup_insert_eq|].
  split; [intros k' Hne; now apply lookup_insert_ne|].
  split; [reflexivity|].
  split; [exact Hlen|].
  eexists. rewrite app_get. split; [reflexivity|]. split.
  - rewrite length_map. exact Hlen.
  - unfold Db.select_all. cbn [Db.rows].
    apply (list_elem_of_fmap_2
             (fun '(k, r) => mkFetched k (parseFloat (Db.amount r))
                               (Db.category r) (Db.note r) (Db.date r))
             _ (Db.auto_increment t, r)).
    apply elem_of_map_to_list. apply lookup_insert_eq.
Qed.

(** X5. A create is answered 201, 400 or 500, and one that is not
    answered 201 writes nothing. *)
Theorem failed_create_writes_nothing (b : body) (t : Db.table) :
  (status (fst (app (mkRequest POST ["expenses"] b) t)) = 201
   \/ status (fst (app (mkRequest POST ["expenses"] b) t)) = 400
   \/ status (fst (app (mkRequest POST ["expenses"] b) t)) = 500)
  /\ (status (fst (app (mkRequest POST ["expenses"] b) t)) <> 201 ->
      snd (app (mkRequest POST ["expenses"] b) t) = t).
Proof.
  rewrite app_post.
  destruct (post_expenses_outcome b t) as [[H Ht]|[[H Ht]|H]].
  - rewrite H. split; [auto|]. intros _. exact Ht.
  - rewrite H. split; [auto|]. intros _. exact Ht.
  - destruct H as (? & ? & ? & ? & ? & _ & _ & _ & _ & _ & _ & ->).
    split; [now left|]. intros Hne. now contradiction Hne.
Qed.

(** X6. Reading and updating never write: whatever the path and the
    body, a [GET] or a [PUT] leaves the table as it was. *)
Theorem reads_never_write (path : list string) (b : body) (t : Db.table) :
  snd (app (mkRequest GET path b) t) = t
  /\ snd (app (mkRequest PUT path b) t) = t.
Proof.
  split; [|reflexivity].
  unfold app, routes.
  cbn [dispatch method_eqb route_method route_path handler req_method
         req_path req_body].
  destruct path as [|p [|q [|? ?]]]; cbn [match_path];
    try destruct (same_literal "expenses" p);
    try destruct (String.eqb q ""); reflexivity.
Qed.

(** What one request leaves in the table was there before, unchanged, or
    is the row reported created. *)
Lemma app_rows (req : request) (t : Db.table) (k : Z) (r : Db.row) :
  Db.rows (snd (app req t)) !! k = Some r ->
  Db.rows t !! k = Some r \/ created_key (fst (app req t)) = Some k.
Proof.
  destruct (app_cases engine Date_of Date_toISOString req t)
    as [-> | [-> | [[id ->] | [-> | ->]]]].
  - now left.
  - destruct (post_expenses_outcome (req_body req) t)
      as [[_ ->]|[[_ ->]|H]]; [now left|now left|].
    destruct H as (? & ? & ? & ? & r' & _ & _ & _ & _ & _ & _ & ->).
    cbn [fst snd Db.rows]. intros Hk.
    destruct (decide (k = Db.auto_increment t)) as [->|Hne]; [now right|].
    left. now rewrite lookup_insert_ne in Hk by congruence.
  - unfold delete_expense. destruct (Db.key_of engine id); [now left|].
    cbn [snd Db.delete_where_id Db.rows]. intros Hk.
    left. now apply lookup_delete_Some in Hk as [_ Hk].
  - cbn [snd delete_expenses Db.delete_all Db.rows].
    rewrite lookup_empty. discriminate.
  - now left.
Qed.

(** X7. The API never changes a row: over any run of requests, a row in
    the table at the end was in the table at the start, with the same
    fields, or was created during the run under a key that no row had at
    the start. *)
Theorem rows_never_change (reqs : list request) (t : Db.table) :
  Db.consistent t ->
  forall k r,
    Db.rows (snd (serve reqs t)) !! k = Some r ->
    Db.rows t !! k = Some r
    \/ (k ∈ created (fst (serve reqs t)) /\ Db.rows t !! k = None).
Proof.
  intros Hc k r.
  assert (Hweak : forall reqs t,
             Db.rows (snd (serve reqs t)) !! k = Some r ->
             Db.rows t !! k = Some r \/ k ∈ created (fst (serve reqs t))).
  { clear. intros reqs. induction reqs as [|req reqs IH]; intros t.
    - now left.
    - rewrite serve_cons. cbn [fst snd]. intros Hk.
      destruct (IH _ Hk) as [Hmid|Hlater].
      + destruct (app_rows _ _ _ _ Hmid) as [Hstart|Hnow]; [now left|].
        right. unfold created. simpl. rewrite Hnow. left.
      + right. unfold created. simpl.
        fold (created (fst (serve reqs (snd (app req t))))).
        destruct (created_key (fst (app req t)));
          [now right|exact Hlater]. }
  intros Hk. destruct (Hweak _ _ Hk) as [Hstart|Hmade]; [now left|].
  destruct (Db.rows t !! k) as [r0|] eqn:Hr0; [|now right].
  exfalso.
  destruct (serve_created engine Date_of Date_toISOString reqs t Hc)
    as (_ & _ & _ & Hin).
  apply Hin in Hmade. apply Hc in Hr0. lia.
Qed.

(** X8. Clearing empties the list and keeps the counter: after
    [DELETE /expenses] the list is empty, and over any run of requests
    that follows no created expense is given the key of a row that was
    cleared. *)
Theorem cleared_keys_not_reused (reqs : list request) (t : Db.table) :
  Db.consistent t ->
  let t0 := snd (app (mkRequest DELETE ["expenses"] []) t) in
  fst (app (mkRequest DELETE ["expenses"] []) t) = mkResponse 204 NoContent
  /\ fst (app (mkRequest GET ["expenses"] []) t0)
     = mkResponse 200 (Expenses [])
  /\ (forall k r, Db.rows t !! k = Some r ->
                  k ∉ created (fst (serve reqs t0))).
Proof.
  intros Hc t0.
  assert (Ht0 : t0 = Db.delete_all t) by reflexivity.
  clearbody t0. subst t0.
  split; [reflexivity|]. split.
  - rewrite app_get. unfold get_expenses, Db.select_all, Db.delete_all.
    cbn [Db.rows]. now rewrite map_to_list_empty.
  - intros k r Hk Hmade.
    assert (Hc0 : Db.consistent (Db.delete_all t)).
    { intros k' r' Hk'. unfold Db.delete_all in Hk'. cbn [Db.rows] in Hk'.
      now rewrite lookup_empty in Hk'. }
    destruct (serve_created engine Date_of Date_toISOString reqs _ Hc0)
      as (_ & _ & _ & Hin).
    apply Hin in Hmade. apply Hc in Hk.
    unfold Db.delete_all in Hmade. cbn [Db.auto_increment] in Hmade. lia.
Qed.

End ServerMore.

Lemma create_then_list_witness :
  let b := [("amount", JNum (parseFloat "300")); ("category", JStr "Food");
            ("note", JStr "lunch");
            ("date", JStr "2024-01-01T08:00:00.000Z")] in
  let t' := snd (app Strict.engine IsoDate.of_json IsoDate.toISOString
                   (mkRequest POST ["expenses"] b) Db.empty) in
  let k := Db.auto_increment Db.empty in
  exists amount category date time r,
    field "amount" b = Some amount
    /\ field "category" b = Some category
    /\ field "date" b = Some date
    /\ IsoDate.of_json date = Some time
    /\ Db.converted Strict.engine amount category (field "note" b)
         (replace_first "T" " "
            (String.substring 0 19 (IsoDate.toISOString time))) = inr r
    /\ sent (fst (app Strict.engine IsoDate.of_json IsoDate.toISOString
                    (mkRequest POST ["expenses"] b) Db.empty)) = InsertId k
    /\ Db.rows Db.empty !! k = None
    /\ Db.rows t' !! k = Some r
    /\ (forall k', k' <> k -> Db.rows t' !! k' = Db.rows Db.empty !! k')
    /\ Db.auto_increment t' = k + 1
    /\ length (Db.select_all t') = S (length (Db.select_all Db.empty))
    /\ exists listed_,
        fst (app Strict.engine IsoDate.of_json IsoDate.toISOString
               (mkRequest GET ["expenses"] []) t')
        = mkResponse 200 (Expenses listed_)
        /\ length listed_ = S (length (Db.select_all Db.empty))
        /\ mkFetched k (parseFloat (Db.amount r)) (Db.category r) (Db.note r)
             (Db.date r) ∈ listed_.
Proof.
  apply (create_then_list Strict.engine IsoDate.of_json IsoDate.toISOString).
  reflexivity.
Defined.

Lemma failed_create_writes_nothing_witness :
  let t := Db.mkTable {[ 1 := Db.mkRow "300.00" "Food" None
                                "2024-01-01 00:00:00" ]} 2 in
  let b := [("amount", JNum (parseFloat "300")); ("category", JStr "Food");
            ("date", JStr "yesterday")] in
  status (fst (app Strict.engine IsoDate.of_json IsoDate.toISOString
                 (mkRequest POST ["expenses"] b) t)) = 500
  /\ snd (app Strict.engine IsoDate.of_json IsoDate.toISOString
            (mkRequest POST ["expenses"] b) t) = t.
Proof.
  split; [reflexivity|].
  apply (proj2 (failed_create_writes_nothing Strict.engine IsoDate.of_json
                  IsoDate.toISOString _ _)).
  vm_compute. discriminate.
Defined.

Lemma rows_never_change_witness :
  let t := Db.mkTable {[ 1 := Db.mkRow "300.00" "Food" None
                                "2024-01-01 00:00:00" ]} 2 in
  let reqs := [mkRequest POST ["expenses"]
                 [("amount", JNum (parseFloat "25.5"));
                  ("category", JStr "Coffee");
                  ("date", JStr "2024-01-02T08:00:00.000Z")];
               mkRequest PUT ["expenses"; "1"]
                 [("amount", JNum (parseFloat "1"))]] in
  let made := Db.mkRow "25.50" "Coffee" None "2024-01-02 08:00:00" in
  Db.rows (snd (serve Strict.engine IsoDate.of_json IsoDate.toISOString
                  reqs t)) !! 2 = Some made
  /\ (Db.rows t !! 2 = Some made
      \/ (2 ∈ created (fst (serve Strict.engine IsoDate.of_json
                              IsoDate.toISOString reqs t))
          /\ Db.rows t !! 2 = None)).
Proof.
  split; [reflexivity|].
  apply (rows_never_change Strict.engine IsoDate.of_json IsoDate.toISOString).
  - intros k r Hk. cbn [Db.rows] in Hk.
    apply lookup_singleton_Some in Hk as [<- _]. reflexivity.
  - reflexivity.
Defined.

Lemma cleared_keys_not_reused_witness :
  let t := Db.mkTable {[ 1 := Db.mkRow "300.00" "Food" None
                                "2024-01-01 00:00:00" ]} 2 in
  let reqs := [mkRequest POST ["expenses"]
                 [("amount", JNum (parseFloat "25.5"));
                  ("category", JStr "Coffee");
                  ("date", JStr "2024-01-02T08:00:00.000Z")]] in
  let t0 := snd (app Strict.engine IsoDate.of_json IsoDate.toISOString
                   (mkRequest DELETE ["expenses"] []) t) in
  fst (app Strict.engine IsoDate.of_json IsoDate.toISOString
         (mkRequest DELETE ["expenses"] []) t) = mkResponse 204 NoContent
  /\ fst (app Strict.engine IsoDate.of_json IsoDate.toISOString
            (mkRequest GET ["expenses"] []) t0)
     = mkResponse 200 (Expenses [])
  /\ (forall k r, Db.rows t !! k = Some r ->
                  k ∉ created (fst (serve Strict.engine IsoDate.of_json
                                      IsoDate.toISOString reqs t0))).
Proof.
  apply (cleared_keys_not_reused Strict.engine IsoDate.of_json
           IsoDate.toISOString).
  intros k r Hk. cbn [Db.rows] in Hk.
  apply lookup_singleton_Some in Hk as [<- _]. reflexivity.
Defined.

(* ===================================================================== *)
(** ** The screens over the API *)
(* ===================================================================== *)

(** The decimal text of an integer is not empty. *)
Lemma pretty_N_go_not_empty (x : N) (s : string) :
  s <> "" -> pretty_N_go x s <> "".
Proof.
  revert s. induction (N.lt_wf_0 x) as [x _ IH]; intros s Hs.
  assert (x = 0 \/ 0 < x)%N as [->|Hx] by lia.
  - now rewrite pretty_N_go_0.
  - rewrite pretty_N_go_step by exact Hx.
    apply IH; [now apply N.div_lt|discriminate].
Qed.

Lemma pretty_Z_not_empty (z : Z) : pretty z <> "".
Proof.
  destruct z as [|p|p]; [discriminate| |discriminate].
  change (pretty (Zpos p)) with (pretty_N_go (Npos p) "").
  rewrite pretty_N_go_step by reflexivity.
  apply pretty_N_go_not_empty. discriminate.
Qed.

Section ApiScreenFacts.

Variable engine : Db.engine.
Variable Date_of : json -> option Z.
Variable Date_toISOString : Z -> string.

Local Abbreviation app := (app engine Date_of Date_toISOString).
Local Abbreviation addExpense := (addExpense engine Date_of Date_toISOString).
Local Abbreviation loadExpenses :=
  (loadExpenses engine Date_of Date_toISOString).
Local Abbreviation deleteExpenseHandler :=
  (deleteExpenseHandler engine Date_of Date_toISOString).

Lemma update_body_fields (expense : update) :
  field "amount" (update_body expense)
  = Some (JSON_number (upd_amount expense))
  /\ field "category" (update_body expense)
     = Some (JStr (upd_category expense))
  /\ field "note" (update_body expense) = Some (JStr (upd_note expense))
  /\ field "date" (update_body expense) = Some (JStr (upd_date expense)).
Proof. repeat split. Qed.

Lemma update_body_refused_iff (expense : update) (t : Db.table) :
  status (fst (app (mkRequest POST ["expenses"] (update_body expense)) t))
  = 400
  <-> (match upd_amount expense with
       | S754_finite _ _ _ => False
       | _ => True
       end
       \/ upd_category expense = ""
       \/ upd_date expense = "").
Proof.
  rewrite (app_post engine Date_of Date_toISOString).
  unfold post_expenses.
  destruct (update_body_fields expense) as (-> & -> & -> & ->).
  destruct expense as [x c n d]. cbn [upd_amount upd_category upd_date].
  unfold truthy, JSON_number.
  destruct (String.eqb_spec c "") as [->|Hc];
    destruct (String.eqb_spec d "") as [->|Hd];
    destruct x as [s|s| |s m e]; cbn [Num.isFinite negb orb status fst];
    try (split; [intros _; tauto|reflexivity]).
  split.
  - intros Hstatus. exfalso. revert Hstatus.
    destruct (Date_of (JStr d)); [|discriminate].
    destruct (Db.converted _ _ _ _ _); [discriminate|].
    destruct (Db.insert _ _) as [|[k t']]; discriminate.
  - intros [[]|[Hc'|Hd']]; congruence.
Qed.

(** X9. What the server refuses of the client's [addExpense]: the call is
    rejected with the answer 400, the table left as it was, exactly when
    the amount is zero or not finite, or the category or the date is
    empty; any other expense, a negative amount included, passes the
    validation. *)
Theorem addExpense_refused_iff (expense : update) (t : Db.table) :
  (exists res, addExpense expense t = (inl res, t) /\ status res = 400)
  <-> (match upd_amount expense with
       | S754_finite _ _ _ => False
       | _ => True
       end
       \/ upd_category expense = ""
       \/ upd_date expense = "").
Proof.
  rewrite <- (update_body_refused_iff expense t).
  unfold addExpense.
  rewrite (app_post engine Date_of Date_toISOString).
  destruct (post_expenses_outcome engine Date_of Date_toISOString
              (update_body expense) t) as [[H Ht]|[[H Ht]|H]].
  - destruct (post_expenses _ _ _ _ _) as [res t'].
    cbn [fst snd] in *. subst t'. split; [intros _; exact H|intros _].
    exists res. unfold accepted. rewrite H. now split.
  - destruct (post_expenses _ _ _ _ _) as [res t'].
    cbn [fst snd] in *. subst t'. unfold accepted. rewrite H. cbn.
    split; [|discriminate]. intros (res' & [= <-] & Hres'). congruence.
  - destruct H as (? & ? & ? & ? & ? & _ & _ & _ & _ & _ & _ & ->).
    cbn. split; [|discriminate]. intros (res' & [= ] & _).
Qed.

(** X10. Deleting from the expenses screen, with an engine that reads the
    decimal text of a key as that key: the row is gone from the table,
    the list is loaded again without error, and it holds every other row
    and no expense of the deleted id. *)
Theorem deleteExpenseHandler_reloads (id : Z) (expenses : list fetched)
    (t : Db.table) :
  Db.key_of engine (pretty id) = inr id ->
  let s := deleteExpenseHandler id expenses t in
  served s = Db.delete_where_id id t
  /\ dialog s = None
  /\ (forall f, f ∈ listed s -> fetched_id f <> id)
  /\ (forall k r, k <> id -> Db.rows t !! k = Some r ->
        mkFetched k (parseFloat (Db.amount r)) (Db.category r) (Db.note r)
          (Db.date r) ∈ listed s)
  /\ length (listed s) = size (delete id (Db.rows t)).
Proof.
  intros Hkey.
  assert (Hs : deleteExpenseHandler id expenses t
               = mkScreen
                   (map (fun '(k, r) =>
                           mkFetched k (parseFloat (Db.amount r))
                             (Db.category r) (Db.note r) (Db.date r))
                      (map_to_list (delete id (Db.rows t))))
                   None (Db.delete_where_id id t)).
  { unfold deleteExpenseHandler, deleteExpense.
    rewrite (app_delete engine Date_of Date_toISOString)
      by apply pretty_Z_not_empty.
    unfold delete_expense. rewrite Hkey. reflexivity. }
  rewrite Hs. cbn [served dialog listed].
  split; [reflexivity|]. split; [reflexivity|]. split; [|split].
  - intros f Hf. apply list_elem_of_fmap in Hf as ([k r] & -> & Hkr).
    apply elem_of_map_to_list in Hkr. cbn [fetched_id]. intros ->.
    now rewrite lookup_delete_eq in Hkr.
  - intros k r Hne Hk.
    apply (list_elem_of_fmap_2
             (fun '(k, r) => mkFetched k (parseFloat (Db.amount r))
                               (Db.category r) (Db.note r) (Db.date r))
             _ (k, r)).
    apply elem_of_map_to_list. now rewrite lookup_delete_ne by congruence.
  - rewrite length_map. apply length_map_to_list.
Qed.

End ApiScreenFacts.

Lemma deleteExpenseHandler_reloads_witness :
  let t := Db.mkTable {[ 1 := Db.mkRow "300.00" "Food" None
                                "2024-01-01 00:00:00";
                         2 := Db.mkRow "25.50" "Coffee" None
                                "2024-01-02 00:00:00" ]} 3 in
  let s := deleteExpenseHandler Strict.engine IsoDate.of_json
             IsoDate.toISOString 1 [] t in
  listed s = [mkFetched 2 (parseFloat "25.50") "Coffee" None
                "2024-01-02 00:00:00"]
  /\ served s = Db.delete_where_id 1 t
  /\ dialog s = None
  /\ (forall f, f ∈ listed s -> fetched_id f <> 1)
  /\ (forall k r, k <> 1 -> Db.rows t !! k = Some r ->
        mkFetched k (parseFloat (Db.amount r)) (Db.category r) (Db.note r)
          (Db.date r) ∈ listed s)
  /\ length (listed s) = size (delete 1 (Db.rows t)).
Proof.
  split; [reflexivity|].
  apply (deleteExpenseHandler_reloads Strict.engine IsoDate.of_json
           IsoDate.toISOString 1).
  reflexivity.
Defined.

Lemma addExpense_refused_iff_witness :
  exists res,
    addExpense Strict.engine IsoDate.of_json IsoDate.toISOString
      (mkUpdate Num.zero "Food" "" "2024-01-01T08:00:00.000Z") Db.empty
    = (inl res, Db.empty)
    /\ status res = 400.
Proof.
  apply (proj2 (addExpense_refused_iff Strict.engine IsoDate.of_json
                  IsoDate.toISOString
                  (mkUpdate Num.zero "Food" "" "2024-01-01T08:00:00.000Z")
                  Db.empty)).
  left. exact I.
Defined.

(* ===================================================================== *)
(** ** The expenses screen over the on-device store *)
(* ===================================================================== *)

Section LocalExpensesFacts.

Variable Date_parse : string -> option Z.

Local Abbreviation time_of := (time_of Date_parse).
Local Abbreviation valid_date := (valid_date Date_parse).
Local Abbreviation by_date_desc := (by_date_desc Date_parse).
Local Abbreviation loadExpenses := (LocalExpenses.loadExpenses Date_parse).

Lemma sort_insert_perm (cmp : Expense.t -> Expense.t -> option Z)
    (x : Expense.t) (l : list Expense.t) :
  Permutation (sort_insert cmp x l) (x :: l).
Proof.
  induction l as [|y l IH]; [reflexivity|].
  simpl. destruct (0 <? SortCompare cmp x y)%Z; [|reflexivity].
  rewrite IH. apply perm_swap.
Qed.

Lemma Array_sort_perm (cmp : Expense.t -> Expense.t -> option Z)
    (l : list Expense.t) :
  Permutation (Array_sort cmp l) l.
Proof.
  induction l as [|x l IH]; [reflexivity|].
  simpl. rewrite sort_insert_perm. now constructor.
Qed.

Lemma filter_keeps_order {A : Type} (R : A -> A -> Prop) (keep : A -> bool)
    (l : list A) :
  StronglySorted R l -> StronglySorted R (List.filter keep l).
Proof.
  induction 1 as [|x l Hs IH Hx]; [constructor|].
  simpl. destruct (keep x); [|exact IH].
  constructor; [exact IH|].
  rewrite List.Forall_forall in *. intros y Hy.
  apply List.filter_In in Hy as [Hy _]. now apply Hx.
Qed.

Lemma filter_keeps_all {A : Type} (P : A -> Prop) (keep : A -> bool)
    (l : list A) :
  Forall P l -> Forall P (List.filter keep l).
Proof.
  rewrite !List.Forall_forall. intros H y Hy.
  apply List.filter_In in Hy as [Hy _]. now apply H.
Qed.

(** X11. Deleting on the on-device expenses screen, once confirmed,
    removes every expense of that id and no other: the list shown keeps
    the other expenses in their order, the store holds the list shown,
    and the budget keys are left as they were; unconfirmed, nothing
    changes. *)
Theorem local_delete_removes_id (expenseId : string)
    (expenses : list Expense.t) (st : AsyncStorage) :
  let '(updated, st') :=
    LocalExpenses.deleteExpense true expenseId expenses st in
  getItem "expenses" st' = Some (Json updated)
  /\ (forall e, e ∈ updated <-> e ∈ expenses /\ Expense.id e <> expenseId)
  /\ updated `sublist_of` expenses
  /\ getItem "budget_amount" st' = getItem "budget_amount" st
  /\ getItem "budget_type" st' = getItem "budget_type" st
  /\ LocalExpenses.deleteExpense false expenseId expenses st = (expenses, st).
Proof.
  unfold LocalExpenses.deleteExpense, getItem, setItem.
  split; [apply lookup_insert_eq|]. split; [|split].
  - intros e. rewrite !list_elem_of_In, List.filter_In.
    rewrite negb_true_iff, String.eqb_neq. reflexivity.
  - induction expenses as [|e expenses IH]; [constructor|].
    simpl. destruct (negb _); now constructor.
  - now rewrite !lookup_insert_ne by discriminate.
Qed.

(** X12. On the on-device expenses screen, with valid dates, the list
    loaded is in descending order of date, and after a delete the store
    holds the list shown: loading again gives the very list the screen
    shows. *)
Theorem local_delete_then_reload (expenseId : string)
    (expenses : list Expense.t) (st : AsyncStorage) :
  loadExpenses st = Some expenses ->
  Forall valid_date expenses ->
  StronglySorted (fun a b => time_of b <= time_of a) expenses
  /\ let '(updated, st') :=
       LocalExpenses.deleteExpense true expenseId expenses st in
     loadExpenses st' = Some updated.
Proof.
  unfold LocalExpenses.loadExpenses. intros Hload Hvalid.
  destruct (AddExpense.stored_expenses st) as [stored_|] eqn:Hstored;
    [|discriminate Hload].
  injection Hload as <-.
  assert (Hvalid' : Forall valid_date stored_).
  { eapply Permutation_Forall; [apply Array_sort_perm|exact Hvalid]. }
  pose proof (render_expenses_stable Date_parse stored_ Hvalid') as Hstable.
  apply stably_sorted_descending in Hstable as [_ Hdesc].
  split; [exact Hdesc|].
  unfold LocalExpenses.deleteExpense, AddExpense.stored_expenses, getItem,
    setItem.
  rewrite lookup_insert_eq. f_equal.
  apply Array_sort_sorted.
  - now apply filter_keeps_all.
  - now apply filter_keeps_order.
Qed.

End LocalExpensesFacts.

Lemma local_delete_then_reload_witness :
  let a := Expense.mk "1" (parseFloat "300") "Food" ""
             "2024-01-01T08:00:00.000Z" in
  let b := Expense.mk "2" (parseFloat "25.5") "Coffee" ""
             "2024-01-02T08:00:00.000Z" in
  let c := Expense.mk "3" (parseFloat "120") "Transportation" ""
             "2024-01-03T08:00:00.000Z" in
  let st : AsyncStorage := {[ "expenses" := Json [a; b; c] ]} in
  LocalExpenses.loadExpenses IsoDate.parse st = Some [c; b; a]
  /\ StronglySorted
       (fun x y => time_of IsoDate.parse y <= time_of IsoDate.parse x)%Z
       [c; b; a]
  /\ let '(updated, st') :=
       LocalExpenses.deleteExpense true "2" [c; b; a] st in
     LocalExpenses.loadExpenses IsoDate.parse st' = Some updated.
Proof.
  split; [reflexivity|].
  apply (local_delete_then_reload IsoDate.parse "2").
  - reflexivity.
  - repeat constructor; eexists; vm_compute; reflexivity.
Defined.

(* ===================================================================== *)
(** ** Adding an expense against the budget *)
(* ===================================================================== *)

Section BudgetedAddFacts.

Variable Date_toISOString : Z -> string.
Variable Number_toString : number -> string.

Local Abbreviation plain := (AddExpense.handleAddExpense Date_toISOString).
Local Abbreviation handleAddExpense :=
  (BudgetedAdd.handleAddExpense Date_toISOString).
Local Abbreviation addExpenseToStorage :=
  (BudgetedAdd.addExpenseToStorage Date_toISOString).
Local Abbreviation handleBudgetWarningResponse :=
  (BudgetedAdd.handleBudgetWarningResponse Date_toISOString Number_toString).

Lemma addExpenseToStorage_outcome (c : AddExpense.clock) (f : AddExpense.form)
    (s : BudgetedAdd.state) (st : AsyncStorage) :
  Num.isNaN (parseFloat (AddExpense.amount f))
  || (parseFloat (AddExpense.amount f) <=? Num.zero)%num = false ->
  String.eqb (AddExpense.selectedCategory f) "" = false ->
  snd (addExpenseToStorage c (parseFloat (AddExpense.amount f))
         (AddExpense.selectedCategory f) (trim (AddExpense.note f)) s st)
  = plain c f st.
Proof.
  intros Hvalid Hcat.
  unfold BudgetedAdd.addExpenseToStorage, AddExpense.handleAddExpense.
  rewrite Hvalid, Hcat.
  destruct (AddExpense.stored_expenses st); reflexivity.
Qed.

(** X13. The screen that warns stores exactly what the plain add-expense
    screen stores, with the same dialog, whenever the expense does not
    overrun the budget, and so always when the budget is 0; an expense
    that overruns it is held pending, the warning is opened and nothing
    is written. *)
Theorem warning_screen_refines_plain (c : AddExpense.clock)
    (s : BudgetedAdd.state) (st : AsyncStorage) :
  let x := parseFloat (AddExpense.amount (BudgetedAdd.form s)) in
  (BudgetedAdd.checkBudgetOverflow s x = false ->
   snd (handleAddExpense c s st) = plain c (BudgetedAdd.form s) st)
  /\ (SFeqb (BudgetedAdd.budget s) Num.zero = true ->
      snd (handleAddExpense c s st) = plain c (BudgetedAdd.form s) st)
  /\ (BudgetedAdd.checkBudgetOverflow s x = true ->
      Num.isNaN x || (x <=? Num.zero)%num = false ->
      AddExpense.selectedCategory (BudgetedAdd.form s) <> "" ->
      snd (handleAddExpense c s st) = mkOutcome st None None
      /\ BudgetedAdd.showBudgetWarning (fst (handleAddExpense c s st)) = true
      /\ BudgetedAdd.pendingExpense (fst (handleAddExpense c s st))
         = Some (BudgetedAdd.mkPending x
                   (AddExpense.selectedCategory (BudgetedAdd.form s))
                   (trim (AddExpense.note (BudgetedAdd.form s))))).
Proof.
  intros x.
  assert (Hplain : BudgetedAdd.checkBudgetOverflow s x = false ->
            snd (handleAddExpense c s st) = plain c (BudgetedAdd.form s) st).
  { intros Hfits. unfold BudgetedAdd.handleAddExpense. fold x.
    destruct (Num.isNaN x || (x <=? Num.zero)%num) eqn:Hvalid.
    - unfold AddExpense.handleAddExpense. fold x. now rewrite Hvalid.
    - destruct (String.eqb _ "") eqn:Hcat.
      + unfold AddExpense.handleAddExpense. fold x. now rewrite Hvalid, Hcat.
      + rewrite Hfits. now apply addExpenseToStorage_outcome. }
  split; [exact Hplain|]. split.
  - intros Hzero. apply Hplain. unfold BudgetedAdd.checkBudgetOverflow.
    now rewrite Hzero.
  - intros Hover Hvalid Hcat. unfold BudgetedAdd.handleAddExpense. fold x.
    rewrite Hvalid, Hover.
    apply String.eqb_neq in Hcat. rewrite Hcat. now repeat split.
Qed.

(** X14. Answering the warning: Add Anyway stores what the plain screen
    would have stored for the form that raised the warning; Adjust and
    Cancel write nothing; every answer closes the warning and drops the
    pending expense. *)
Theorem warning_answers (c c' : AddExpense.clock) (s : BudgetedAdd.state)
    (st : AsyncStorage) (a : BudgetedAdd.action) :
  let x := parseFloat (AddExpense.amount (BudgetedAdd.form s)) in
  BudgetedAdd.checkBudgetOverflow s x = true ->
  Num.isNaN x || (x <=? Num.zero)%num = false ->
  AddExpense.selectedCategory (BudgetedAdd.form s) <> "" ->
  let warned := fst (handleAddExpense c s st) in
  snd (handleBudgetWarningResponse c' BudgetedAdd.add warned st)
  = plain c' (BudgetedAdd.form s) st
  /\ storage (snd (handleBudgetWarningResponse c' BudgetedAdd.adjust warned st))
     = st
  /\ storage (snd (handleBudgetWarningResponse c' BudgetedAdd.cancel warned st))
     = st
  /\ BudgetedAdd.pendingExpense
       (fst (handleBudgetWarningResponse c' a warned st)) = None
  /\ BudgetedAdd.showBudgetWarning
       (fst (handleBudgetWarningResponse c' a warned st)) = false.
Proof.
  intros x Hover Hvalid Hcat warned.
  assert (Hw : warned
               = BudgetedAdd.mkState (BudgetedAdd.form s)
                   (BudgetedAdd.budget s) (BudgetedAdd.currentExpenses s)
                   (Some (BudgetedAdd.mkPending x
                            (AddExpense.selectedCategory (BudgetedAdd.form s))
                            (trim (AddExpense.note (BudgetedAdd.form s)))))
                   true (BudgetedAdd.showTipsModal s)).
  { unfold warned, BudgetedAdd.handleAddExpense. fold x.
    rewrite Hvalid, Hover.
    apply String.eqb_neq in Hcat. now rewrite Hcat. }
  rewrite Hw. clear Hw warned.
  apply String.eqb_neq in Hcat.
  split; [|split; [reflexivity|split; [reflexivity|]]].
  - unfold BudgetedAdd.handleBudgetWarningResponse.
    cbn [BudgetedAdd.pendingExpense BudgetedAdd.pending_amount
           BudgetedAdd.pending_category BudgetedAdd.pending_note].
    rewrite <- (addExpenseToStorage_outcome c' (BudgetedAdd.form s)
                  (BudgetedAdd.mkState (BudgetedAdd.form s)
                     (BudgetedAdd.budget s) (BudgetedAdd.currentExpenses s)
                     (Some (BudgetedAdd.mkPending x
                              (AddExpense.selectedCategory
                                 (BudgetedAdd.form s))
                              (trim (AddExpense.note (BudgetedAdd.form s)))))
                     false (BudgetedAdd.showTipsModal s)) st Hvalid Hcat).
    fold x. destruct (addExpenseToStorage _ _ _ _ _ _) as [s1 out].
    reflexivity.
  - unfold BudgetedAdd.handleBudgetWarningResponse,
      BudgetedAdd.addExpenseToStorage.
    cbn [BudgetedAdd.pendingExpense]. destruct a;
      [destruct (AddExpense.stored_expenses st)| |]; now split.
Qed.

(** X15. The running total of the screen and the store, when the running
    total is the total of the stored expenses, a list that was read back
    from the store, and an expense is stored. The list is one longer; the
    running total grows by an addition of the amount, and the total of the
    stored expenses, which is what loading the budget data anew gives, by
    an addition of the amount as it is read back. For an amount that is
    positive and finite the two are the same: the running total stays in
    step with the store. *)
Theorem running_total_in_step (c : AddExpense.clock) (x : number)
    (category noteText : string) (s : BudgetedAdd.state)
    (st : AsyncStorage) (expenses : list Expense.t) :
  getItem "expenses" st = Some (Json expenses) ->
  JSON_expenses expenses = expenses ->
  BudgetedAdd.currentExpenses s = Home.totalSpent expenses ->
  let '(s', out) := addExpenseToStorage c x category noteText s st in
  exists expenses',
    getItem "expenses" (storage out) = Some (Json expenses')
    /\ length expenses' = S (length expenses)
    /\ BudgetedAdd.currentExpenses s' = (Home.totalSpent expenses + x)%num
    /\ Home.totalSpent expenses'
       = (Home.totalSpent expenses + JSON_amount x)%num
    /\ BudgetedAdd.currentExpenses (BudgetedAdd.loadBudgetData (storage out) s')
       = Home.totalSpent expenses'
    /\ (Num.isFinite x = true ->
        (x >? Num.zero)%num = true ->
        BudgetedAdd.currentExpenses s' = Home.totalSpent expenses'
        /\ BudgetedAdd.currentExpenses
             (BudgetedAdd.loadBudgetData (storage out) s')
           = BudgetedAdd.currentExpenses s').
Proof.
  intros Hst Hread Hs.
  unfold BudgetedAdd.addExpenseToStorage, AddExpense.stored_expenses.
  rewrite Hst. eexists. cbn [storage BudgetedAdd.currentExpenses].
  unfold getItem, setItem. rewrite lookup_insert_eq.
  split; [reflexivity|].
  split; [rewrite JSON_expenses_length, length_app; simpl; lia|].
  assert (Htotal : Home.totalSpent
                     (JSON_expenses
                        (expenses
                         ++ [Expense.mk (pretty (AddExpense.now c)) x
                               category noteText
                               (Date_toISOString (AddExpense.today c))]))
                   = (Home.totalSpent expenses + JSON_amount x)%num).
  { rewrite JSON_expenses_app, Hread.
    unfold Home.totalSpent. now rewrite fold_left_app. }
  assert (Hload : BudgetedAdd.currentExpenses
                    (BudgetedAdd.loadBudgetData
                       (<["expenses" :=
                            Json (JSON_expenses
                                    (expenses
                                     ++ [Expense.mk (pretty (AddExpense.now c))
                                           x category noteText
                                           (Date_toISOString
                                              (AddExpense.today c))]))]> st)
                       (BudgetedAdd.mkState BudgetedAdd.clearForm
                          (BudgetedAdd.budget s)
                          (BudgetedAdd.currentExpenses s + x)%num
                          (BudgetedAdd.pendingExpense s)
                          (BudgetedAdd.showBudgetWarning s)
                          (BudgetedAdd.showTipsModal s)))
                  = (Home.totalSpent expenses + JSON_amount x)%num).
  { unfold BudgetedAdd.loadBudgetData, getItem. rewrite lookup_insert_eq.
    cbn [BudgetedAdd.currentExpenses]. exact Htotal. }
  split; [now rewrite Hs|]. split; [exact Htotal|].
  split; [now rewrite Hload, Htotal|].
  intros Hfinite Hpos.
  rewrite Hload, Htotal, (JSON_amount_positive x Hfinite Hpos), Hs.
  now split.
Qed.

End BudgetedAddFacts.

Lemma warning_screen_refines_plain_witness :
  let s := BudgetedAdd.mkState (AddExpense.mkForm "300" "Food" " lunch ")
             (parseFloat "500") (parseFloat "400") None false false in
  let c := AddExpense.mkClock 1700000000000 1700000000000 in
  let st : AsyncStorage := {[ "expenses" := Json [spend "1" "400"] ]} in
  snd (BudgetedAdd.handleAddExpense IsoDate.toISOString c s st)
  = mkOutcome st None None
  /\ BudgetedAdd.showBudgetWarning
       (fst (BudgetedAdd.handleAddExpense IsoDate.toISOString c s st)) = true
  /\ BudgetedAdd.pendingExpense
       (fst (BudgetedAdd.handleAddExpense IsoDate.toISOString c s st))
     = Some (BudgetedAdd.mkPending (parseFloat "300") "Food" "lunch").
Proof.
  apply (proj2 (proj2 (warning_screen_refines_plain IsoDate.toISOString
                         (AddExpense.mkClock 1700000000000 1700000000000)
                         (BudgetedAdd.mkState
                            (AddExpense.mkForm "300" "Food" " lunch ")
                            (parseFloat "500") (parseFloat "400") None false
                            false)
                         {[ "expenses" := Json [spend "1" "400"] ]})));
    [reflexivity|reflexivity|discriminate].
Defined.

Lemma warning_answers_witness :
  let s := BudgetedAdd.mkState (AddExpense.mkForm "300" "Food" " lunch ")
             (parseFloat "500") (parseFloat "400") None false false in
  let c := AddExpense.mkClock 1700000000000 1700000000000 in
  let c' := AddExpense.mkClock 1700000005000 1700000005000 in
  let st : AsyncStorage := {[ "expenses" := Json [spend "1" "400"] ]} in
  let warned := fst (BudgetedAdd.handleAddExpense IsoDate.toISOString c s st) in
  snd (BudgetedAdd.handleBudgetWarningResponse IsoDate.toISOString
         (fun _ => "100") c' BudgetedAdd.add warned st)
  = AddExpense.handleAddExpense IsoDate.toISOString c' (BudgetedAdd.form s) st
  /\ storage (snd (BudgetedAdd.handleBudgetWarningResponse IsoDate.toISOString
                     (fun _ => "100") c' BudgetedAdd.adjust warned st)) = st
  /\ storage (snd (BudgetedAdd.handleBudgetWarningResponse IsoDate.toISOString
                     (fun _ => "100") c' BudgetedAdd.cancel warned st)) = st
  /\ BudgetedAdd.pendingExpense
       (fst (BudgetedAdd.handleBudgetWarningResponse IsoDate.toISOString
               (fun _ => "100") c' BudgetedAdd.add warned st)) = None
  /\ BudgetedAdd.showBudgetWarning
       (fst (BudgetedAdd.handleBudgetWarningResponse IsoDate.toISOString
               (fun _ => "100") c' BudgetedAdd.add warned st)) = false.
Proof.
  apply (warning_answers IsoDate.toISOString (fun _ => "100")
           (AddExpense.mkClock 1700000000000 1700000000000)
           (AddExpense.mkClock 1700000005000 1700000005000)
           (BudgetedAdd.mkState (AddExpense.mkForm "300" "Food" " lunch ")
              (parseFloat "500") (parseFloat "400") None false false)
           {[ "expenses" := Json [spend "1" "400"] ]} BudgetedAdd.add);
    [reflexivity|reflexivity|discriminate].
Defined.

Lemma running_total_in_step_witness :
  let s := BudgetedAdd.mkState (AddExpense.mkForm "" "" "")
             (parseFloat "500") (parseFloat "400") None false false in
  let c := AddExpense.mkClock 1700000000000 1700000000000 in
  let st : AsyncStorage := {[ "expenses" := Json [spend "1" "400"] ]} in
  let x := parseFloat "0.1" in
  let '(s', out) :=
    BudgetedAdd.addExpenseToStorage IsoDate.toISOString c x "Food" "" s st in
  exists expenses',
    getItem "expenses" (storage out) = Some (Json expenses')
    /\ length expenses' = 2%nat
    /\ BudgetedAdd.currentExpenses s'
       = (Home.totalSpent [spend "1" "400"] + x)%num
    /\ Home.totalSpent expenses'
       = (Home.totalSpent [spend "1" "400"] + JSON_amount x)%num
    /\ BudgetedAdd.currentExpenses (BudgetedAdd.loadBudgetData (storage out) s')
       = Home.totalSpent expenses'
    /\ (Num.isFinite x = true ->
        (x >? Num.zero)%num = true ->
        BudgetedAdd.currentExpenses s' = Home.totalSpent expenses'
        /\ BudgetedAdd.currentExpenses
             (BudgetedAdd.loadBudgetData (storage out) s')
           = BudgetedAdd.currentExpenses s').
Proof.
  apply (running_total_in_step IsoDate.toISOString
           (AddExpense.mkClock 1700000000000 1700000000000)
           (parseFloat "0.1") "Food" ""
           (BudgetedAdd.mkState (AddExpense.mkForm "" "" "")
              (parseFloat "500") (parseFloat "400") None false false)
           {[ "expenses" := Json [spend "1" "400"] ]} [spend "1" "400"]);
    reflexivity.
Defined.

(** An amount that is not finite puts the running total out of step: the
    text [Infinity] passes the validation, the running total becomes
    infinite, and the amount read back from the store counts as 0. *)
Example running_total_out_of_step :
  let s := BudgetedAdd.mkState (AddExpense.mkForm "Infinity" "Food" "")
             Num.zero (parseFloat "400") None false false in
  let c := AddExpense.mkClock 1700000000000 1700000000000 in
  let st : AsyncStorage := {[ "expenses" := Json [spend "1" "400"] ]} in
  let '(s', out) := BudgetedAdd.handleAddExpense IsoDate.toISOString c s st in
  BudgetedAdd.currentExpenses s' = S754_infinity false
  /\ BudgetedAdd.currentExpenses (BudgetedAdd.loadBudgetData (storage out) s')
     = parseFloat "400".
Proof. vm_compute. split; reflexivity. Qed.

(* ===================================================================== *)
(** ** From the first start to the home screen *)
(* ===================================================================== *)

Lemma not_positive_fails (x : number) :
  (x >? Num.zero)%num = false ->
  Num.isNaN x || (x <=? Num.zero)%num = true.
Proof.
  destruct x as [s|s| |s m e]; try destruct s; try reflexivity;
    discriminate.
Qed.

Lemma positive_text (text : string) :
  (parseFloat text >? Num.zero)%num = true -> String.eqb text "" = false.
Proof.
  intros Hpos. destruct (String.eqb_spec text "") as [->|]; [|reflexivity].
  discriminate Hpos.
Qed.

(** X16. The start screen follows the set-up: without a budget type it
    goes to the onboarding; once a type is chosen and no amount is stored
    it goes to the budget set-up; once a positive amount is saved as well
    it goes to the tabs. *)
Theorem start_follows_setup (type amount : string) (st : AsyncStorage) :
  type <> "" ->
  (parseFloat amount >? Num.zero)%num = true ->
  (getItem "budget_type" st = None -> checkOnboardingStatus st = "/onboarding")
  /\ (getItem "budget_amount" st = None ->
      checkOnboardingStatus (storage (handleSelect type st)) = "/budget-setup")
  /\ checkOnboardingStatus
       (storage (handleSetBudget amount (storage (handleSelect type st))))
     = "/(tabs)".
Proof.
  intros Htype Hpos. apply String.eqb_neq in Htype.
  unfold checkOnboardingStatus, handleSelect, handleSetBudget, getItem,
    setItem. cbn [storage].
  split; [|split].
  - intros ->. reflexivity.
  - intros Hnone. rewrite lookup_insert_eq.
    rewrite lookup_insert_ne by discriminate. rewrite Hnone.
    cbn. now rewrite Htype.
  - rewrite (positive_passes _ Hpos). cbn [storage].
    rewrite !lookup_insert_ne by discriminate. rewrite lookup_insert_eq.
    rewrite lookup_insert_ne by discriminate. rewrite lookup_insert_eq.
    cbn. now rewrite Htype, (positive_text _ Hpos).
Qed.

Lemma start_follows_setup_witness :
  checkOnboardingStatus ∅ = "/onboarding"
  /\ checkOnboardingStatus (storage (handleSelect "weekly" ∅))
     = "/budget-setup"
  /\ checkOnboardingStatus
       (storage (handleSetBudget "1000" (storage (handleSelect "weekly" ∅))))
     = "/(tabs)".
Proof.
  destruct (start_follows_setup "weekly" "1000" ∅) as (H1 & H2 & H3);
    [discriminate|reflexivity|].
  split; [apply H1; reflexivity|]. split; [apply H2; reflexivity|exact H3].
Defined.

(** X17. Saving the budget is all or nothing. A positive amount is read
    back by the home screen as the budget, with no expense stored, so
    that the remainder is the budget and the status good; any other
    amount raises the dialog, writes nothing and stays on the screen. *)
Theorem budget_saved_or_refused (amount : string) (st : AsyncStorage) :
  ((parseFloat amount >? Num.zero)%num = true ->
   let st' := storage (handleSetBudget amount st) in
   Home.loadBudget st' = parseFloat amount
   /\ AddExpense.stored_expenses st' = Some []
   /\ Home.remaining (Home.loadBudget st') [] = parseFloat amount
   /\ Home.getBudgetStatus (Home.loadBudget st') [] = good)
  /\ ((parseFloat amount >? Num.zero)%num = false ->
      handleSetBudget amount st
      = mkOutcome st
          (Some (Alert "Invalid Amount" "Please enter a valid budget amount"))
          None).
Proof.
  split.
  - intros Hpos.
    assert (Hload : Home.loadBudget (storage (handleSetBudget amount st))
                    = parseFloat amount).
    { unfold handleSetBudget. rewrite (positive_passes _ Hpos).
      unfold Home.loadBudget, getItem, setItem. cbn [storage].
      rewrite lookup_insert_ne by discriminate. rewrite lookup_insert_eq.
      now rewrite (positive_text _ Hpos). }
    cbv zeta. rewrite Hload. split; [reflexivity|]. split.
    + unfold handleSetBudget. rewrite (positive_passes _ Hpos).
      unfold AddExpense.stored_expenses, getItem, setItem. cbn [storage].
      now rewrite lookup_insert_eq.
    + destruct (parseFloat amount) as [s|s| |s m e]; try destruct s;
        try discriminate Hpos; vm_compute; split; reflexivity.
  - intros Hbad. unfold handleSetBudget.
    now rewrite (not_positive_fails _ Hbad).
Qed.

Lemma budget_saved_or_refused_witness :
  let st : AsyncStorage :=
    {[ "budget_type" := Text "weekly";
       "expenses" := Json [spend "1" "300"] ]} in
  (let st' := storage (handleSetBudget "1000" st) in
   Home.loadBudget st' = parseFloat "1000"
   /\ AddExpense.stored_expenses st' = Some []
   /\ Home.remaining (Home.loadBudget st') [] = parseFloat "1000"
   /\ Home.getBudgetStatus (Home.loadBudget st') [] = good)
  /\ handleSetBudget "-5" st
     = mkOutcome st
         (Some (Alert "Invalid Amount" "Please enter a valid budget amount"))
         None.
Proof.
  split.
  - apply (proj1 (budget_saved_or_refused "1000" _)). reflexivity.
  - apply (proj2 (budget_saved_or_refused "-5" _)). reflexivity.
Defined.

(* ===================================================================== *)
(** ** Adding an expense on the device, the outcome *)
(* ===================================================================== *)

Section AddExpenseOutcome.

Variable Date_toISOString : Z -> string.

Local Abbreviation handleAddExpense :=
  (AddExpense.handleAddExpense Date_toISOString).

(** X18. An expense is added on the device, and the dialog that names the
    amount raised, exactly when the amount is positive, a category is
    chosen and the stored list can be read. The list then written is the
    stored one followed by the expense with the clock reading as id, the
    parsed amount, the trimmed note and the date of the clock, as it is
    read back; the budget keys are left as they were. When the amount is
    finite and the stored list was read back from the store, the expenses
    before are as they were, the new one has the parsed amount, and the
    total grows by one addition of the amount; when it is not finite the
    total grows by an addition of 0. Otherwise the store is left as it
    was. *)
Theorem handleAddExpense_outcome (c : AddExpense.clock) (f : AddExpense.form)
    (st : AsyncStorage) :
  let out := handleAddExpense c f st in
  let expenseAmount := parseFloat (AddExpense.amount f) in
  let newExpense :=
    Expense.mk (pretty (AddExpense.now c)) expenseAmount
      (AddExpense.selectedCategory f) (trim (AddExpense.note f))
      (Date_toISOString (AddExpense.today c)) in
  let added :=
    Some (Alert "Expense Added!"
            ("₱" ++ NumberText.toFixed 2 expenseAmount
             ++ " has been added to your expenses.")) in
  (raised out = added
   <-> (expenseAmount >? Num.zero)%num = true
       /\ AddExpense.selectedCategory f <> ""
       /\ AddExpense.stored_expenses st <> None)
  /\ (raised out <> added -> storage out = st)
  /\ (forall expenses,
         raised out = added ->
         AddExpense.stored_expenses st = Some expenses ->
         AddExpense.stored_expenses (storage out)
         = Some (JSON_expenses (expenses ++ [newExpense]))
         /\ (JSON_expenses expenses = expenses ->
             Num.isFinite expenseAmount = true ->
             AddExpense.stored_expenses (storage out)
             = Some (expenses ++ [newExpense])%list
             /\ Home.totalSpent (expenses ++ [newExpense])
                = (Home.totalSpent expenses + expenseAmount)%num)
         /\ (Num.isFinite expenseAmount = false ->
             Home.totalSpent (JSON_expenses (expenses ++ [newExpense]))
             = (Home.totalSpent (JSON_expenses expenses) + Num.zero)%num)
         /\ getItem "budget_amount" (storage out) = getItem "budget_amount" st
         /\ getItem "budget_type" (storage out) = getItem "budget_type" st).
Proof.
  cbv zeta. unfold AddExpense.handleAddExpense.
  destruct ((parseFloat (AddExpense.amount f) >? Num.zero)%num) eqn:Hpos.
  - rewrite (positive_passes _ Hpos).
    destruct (String.eqb_spec (AddExpense.selectedCategory f) "") as [Hc|Hc].
    + cbn [raised storage]. split; [|split].
      * split; [discriminate|]. intros (_ & Hne & _). contradiction.
      * reflexivity.
      * intros expenses Hadded. discriminate Hadded.
    + destruct (AddExpense.stored_expenses st) as [stored_|] eqn:Hstored;
        cbn [raised storage]; (split; [|split]).
      * split; [intros _|reflexivity].
        split; [reflexivity|]. split; [exact Hc|discriminate].
      * intros Hne. now contradiction Hne.
      * intros expenses _ [= <-].
        unfold AddExpense.stored_expenses, getItem, setItem.
        rewrite lookup_insert_eq.
        rewrite !lookup_insert_ne by discriminate.
        split; [reflexivity|]. split; [|split; [|now split]].
        -- intros Hread Hfinite.
           rewrite JSON_expenses_app, Hread. cbn [JSON_expenses map].
           cbn [Expense.id Expense.amount Expense.category Expense.note
                  Expense.date].
           rewrite (JSON_amount_positive _ Hfinite Hpos).
           split; [reflexivity|].
           unfold Home.totalSpent. now rewrite fold_left_app.
        -- intros Hinf. rewrite JSON_expenses_app.
           unfold Home.totalSpent. rewrite fold_left_app.
           cbn [JSON_expenses map fold_left Expense.amount].
           destruct (parseFloat (AddExpense.amount f)); try discriminate Hinf;
             reflexivity.
      * split; [discriminate|]. intros (_ & _ & Hne). now contradiction Hne.
      * reflexivity.
      * intros expenses Hadded. discriminate Hadded.
  - rewrite (not_positive_fails _ Hpos). cbn [raised storage].
    split; [|split].
    + split; [discriminate|]. intros (Hpos' & _). discriminate Hpos'.
    + reflexivity.
    + intros expenses Hadded. discriminate Hadded.
Qed.

End AddExpenseOutcome.

Lemma handleAddExpense_outcome_witness :
  let c := AddExpense.mkClock 1700000000000 1700000000123 in
  let f := AddExpense.mkForm "25.50" "Coffee" "  latte " in
  let st : AsyncStorage :=
    {[ "budget_amount" := Text "1000";
       "expenses" := Json [spend "1" "300"] ]} in
  let out := AddExpense.handleAddExpense IsoDate.toISOString c f st in
  let newExpense := Expense.mk "1700000000000" (parseFloat "25.50") "Coffee"
                      "latte" "2023-11-14T22:13:20.123Z" in
  raised out
  = Some (Alert "Expense Added!" "₱25.50 has been added to your expenses.")
  /\ AddExpense.stored_expenses (storage out)
     = Some ([spend "1" "300"] ++ [newExpense])%list
  /\ Home.totalSpent ([spend "1" "300"] ++ [newExpense])
     = (Home.totalSpent [spend "1" "300"] + parseFloat "25.50")%num
  /\ getItem "budget_amount" (storage out) = getItem "budget_amount" st
  /\ getItem "budget_type" (storage out) = getItem "budget_type" st.
Proof.
  split; [reflexivity|].
  destruct (proj2 (proj2 (handleAddExpense_outcome IsoDate.toISOString
                            (AddExpense.mkClock 1700000000000 1700000000123)
                            (AddExpense.mkForm "25.50" "Coffee" "  latte ")
                            {[ "budget_amount" := Text "1000";
                               "expenses" := Json [spend "1" "300"] ]}))
              [spend "1" "300"])
    as (_ & Hfinite & _ & Hamount & Htype); [reflexivity|reflexivity|].
  destruct Hfinite as (Hstored & Htotal); [reflexivity|reflexivity|].
  split; [exact Hstored|]. split; [exact Htotal|].
  split; [exact Hamount|exact Htype].
Defined.

(** The amount [Infinity] is written as [null]: the expense is stored, the
    dialog names the amount, and the total of the stored expenses is the
    one before. *)
Example handleAddExpense_stores_null :
  let c := AddExpense.mkClock 1700000000000 1700000000123 in
  let f := AddExpense.mkForm "Infinity" "Food" "" in
  let st : AsyncStorage := {[ "expenses" := Json [spend "1" "300"] ]} in
  let out := AddExpense.handleAddExpense IsoDate.toISOString c f st in
  raised out
  = Some (Alert "Expense Added!"
            "₱Infinity has been added to your expenses.")
  /\ AddExpense.stored_ids (storage out) = ["1"; "1700000000000"]
  /\ (Home.totalSpent <$> AddExpense.stored_expenses (storage out))
     = Some (parseFloat "300").
Proof. vm_compute. repeat split. Qed.

(* ===================================================================== *)
(** ** The validation and the delete of the API *)
(* ===================================================================== *)

Section ServerContract.

Variable engine : Db.engine.
Variable Date_of : json -> option Z.
Variable Date_toISOString : Z -> string.

Local Abbreviation app := (app engine Date_of Date_toISOString).
Local Abbreviation post_expenses :=
  (post_expenses engine Date_of Date_toISOString).

(** X19. The validation of a create: the request is answered 400 exactly
    when the amount, the category or the date of the body is missing or
    falsy (null, false, 0, NaN or the empty string), and then nothing is
    written; the note is never looked at. *)
Theorem create_refused_iff (b : body) (t : Db.table) :
  (status (fst (app (mkRequest POST ["expenses"] b) t)) = 400
   <-> truthy (field "amount" b) = false
       \/ truthy (field "category" b) = false
       \/ truthy (field "date" b) = false)
  /\ (status (fst (app (mkRequest POST ["expenses"] b) t)) = 400 ->
      snd (app (mkRequest POST ["expenses"] b) t) = t).
Proof.
  rewrite (app_post engine Date_of Date_toISOString).
  split.
  - split.
    + intros Hstatus.
      destruct (truthy (field "amount" b)) eqn:Ha; [|now left].
      destruct (truthy (field "category" b)) eqn:Hc; [|now right; left].
      destruct (truthy (field "date" b)) eqn:Hd; [|now right; right].
      exfalso. revert Hstatus. unfold post_expenses. rewrite Ha, Hc, Hd.
      cbn [negb orb].
      destruct (field "amount" b); [|discriminate Ha].
      destruct (field "category" b); [|discriminate Hc].
      destruct (field "date" b) as [date|]; [|discriminate Hd].
      destruct (Date_of date); [|discriminate].
      destruct (Db.converted _ _ _ _ _); [discriminate|].
      destruct (Db.insert _ _) as [|[k t']]; discriminate.
    + intros H.
      now rewrite (post_expenses_rejects engine Date_of Date_toISOString b t H).
  - intros Hstatus.
    destruct (post_expenses_outcome engine Date_of Date_toISOString b t)
      as [[_ Ht]|[[_ Ht]|H]]; [exact Ht|exact Ht|].
    destruct H as (? & ? & ? & ? & ? & _ & _ & _ & _ & _ & _ & Heq).
    rewrite Heq in Hstatus. discriminate Hstatus.
Qed.

(** X20. Deleting an id that a row has, a path segment that is not
    empty, is answered 204 and removes that row and no other: the list is
    one shorter, the key is free, and every other row is as it was. *)
Theorem delete_present_removes_one (id : string) (k : Z) (r : Db.row)
    (t : Db.table) :
  id <> "" ->
  Db.key_of engine id = inr k ->
  Db.rows t !! k = Some r ->
  let t' := snd (app (mkRequest DELETE ["expenses"; id] []) t) in
  fst (app (mkRequest DELETE ["expenses"; id] []) t)
  = mkResponse 204 NoContent
  /\ Db.rows t' !! k = None
  /\ (forall k', k' <> k -> Db.rows t' !! k' = Db.rows t !! k')
  /\ S (length (Db.select_all t')) = length (Db.select_all t)
  /\ Db.auto_increment t' = Db.auto_increment t.
Proof.
  intros Hid Hkey Hrow. cbv zeta.
  rewrite (app_delete engine Date_of Date_toISOString) by exact Hid.
  unfold delete_expense. rewrite Hkey.
  cbn [fst snd Db.delete_where_id Db.rows Db.auto_increment].
  split; [reflexivity|]. split; [apply lookup_delete_eq|].
  split; [intros k' Hne; now apply lookup_delete_ne|].
  split; [|reflexivity].
  unfold Db.select_all, Db.delete_where_id. cbn [Db.rows].
  rewrite !length_map_to_list.
  rewrite (map_size_delete k (Db.rows t)). rewrite Hrow.
  assert (size (Db.rows t) <> 0%nat).
  { apply map_size_non_empty_iff. intros Hempty. rewrite Hempty in Hrow.
    now rewrite lookup_empty in Hrow. }
  simpl. lia.
Qed.

End ServerContract.

Lemma create_refused_iff_witness :
  let t := Db.mkTable {[ 1 := Db.mkRow "300.00" "Food" None
                                "2024-01-01 00:00:00" ]} 2 in
  let b := [("amount", JNum Num.zero); ("category", JStr "Food");
            ("date", JStr "2024-01-02T08:00:00.000Z")] in
  status (fst (app Strict.engine IsoDate.of_json IsoDate.toISOString
                 (mkRequest POST ["expenses"] b) t)) = 400
  /\ snd (app Strict.engine IsoDate.of_json IsoDate.toISOString
            (mkRequest POST ["expenses"] b) t) = t.
Proof.
  assert (H : status (fst (app Strict.engine IsoDate.of_json
                             IsoDate.toISOString
                             (mkRequest POST ["expenses"]
                                [("amount", JNum Num.zero);
                                 ("category", JStr "Food");
                                 ("date", JStr "2024-01-02T08:00:00.000Z")])
                             (Db.mkTable
                                {[ 1 := Db.mkRow "300.00" "Food" None
                                          "2024-01-01 00:00:00" ]} 2)))
              = 400).
  { apply (proj2 (proj1 (create_refused_iff Strict.engine IsoDate.of_json
                           IsoDate.toISOString _ _))).
    left. reflexivity. }
  split; [exact H|].
  apply (proj2 (create_refused_iff Strict.engine IsoDate.of_json
                  IsoDate.toISOString _ _)).
  exact H.
Defined.

Lemma delete_present_removes_one_witness :
  let t := Db.mkTable {[ 1 := Db.mkRow "300.00" "Food" None
                                "2024-01-01 00:00:00";
                         2 := Db.mkRow "25.50" "Coffee" None
                                "2024-01-02 00:00:00" ]} 3 in
  let t' := snd (app Strict.engine IsoDate.of_json IsoDate.toISOString
                   (mkRequest DELETE ["expenses"; "2"] []) t) in
  fst (app Strict.engine IsoDate.of_json IsoDate.toISOString
         (mkRequest DELETE ["expenses"; "2"] []) t)
  = mkResponse 204 NoContent
  /\ Db.rows t' !! 2 = None
  /\ (forall k', k' <> 2 -> Db.rows t' !! k' = Db.rows t !! k')
  /\ S (length (Db.select_all t')) = length (Db.select_all t)
  /\ Db.auto_increment t' = Db.auto_increment t.
Proof.
  apply (delete_present_removes_one Strict.engine IsoDate.of_json
           IsoDate.toISOString "2" 2
           (Db.mkRow "25.50" "Coffee" None "2024-01-02 00:00:00"));
    [discriminate|reflexivity|reflexivity].
Defined.
